(** * boomi_exporter_v6.py: a shallow embedding and its properties

    The exporter is a linear pipeline: check three credentials, page through
    the component metadata query, and for every metadata record fetch the
    component's XML and write it under a sanitized folder and file name.

    Python values are embedded as follows.
    - [str] is a list of Unicode code points ([pystr]); the literals of the
      program are ASCII and written with [lit].
    - The objects decoded from JSON that the program reads are scalars
      ([value]: None, bool, int, str); a metadata record is a [dict] from
      keys to scalars ([gmap string value]).  Floats, arrays and objects as
      values of a record are left out.
    - [str.isalnum] and [str.isspace] are CPython's Unicode tables.  On ASCII
      they are written out; beyond ASCII they are the fields of [UnicodeDB],
      a parameter of the development.
    - The network, the file system and the console are fields of [world];
      every function that touches them takes and returns the world.
    - The network is a script: the answers of the query endpoint and of the
      document endpoint, in the order of the calls.  A 2xx answer of the
      query endpoint is a JSON object ([response]) whose [result], when it is
      there, is a list of records; a request made when the script is used up
      fails in the transport.  A call of [requests] answers or raises one of
      the exceptions the program catches.
    - The operating system decides whether [os.makedirs] and the writing of a
      file succeed ([os_model]); when they do not, they raise OSError
      (IOError is the same class).  Paths are POSIX paths, and a path is there
      when this very string was made or written.  [print] succeeds.
    - An exception that nothing catches ends the statement it is raised in
      ([exc] for expressions, [outcome] for statements that change the
      world). *)

From Stdlib Require Import ZArith NArith Ascii String DecimalString.
From stdpp Require Import base gmap list strings.

#[local] Set Warnings "-register-all".
#[local] Open Scope N_scope.

(** ** Strings *)

Abbreviation pystr := (list N).

(** An ASCII literal of the program as a Python string. *)
Definition lit (s : string) : pystr := N_of_ascii <$> list_ascii_of_string s.
Arguments lit : simpl never.

(** CPython's character tables beyond ASCII (Objects/unicodectype.c). *)
Class UnicodeDB := {
  db_isalnum : N → bool;
  db_isspace : N → bool
}.

(** [c.isalnum()] on ASCII: the digits and the letters. *)
Definition ascii_isalnum (c : N) : bool :=
  ((48 <=? c) && (c <=? 57)) || ((65 <=? c) && (c <=? 90)) || ((97 <=? c) && (c <=? 122)).

(** [c.isspace()] on ASCII: TAB, LF, VT, FF, CR, the separators FS GS RS US,
    and the space. *)
Definition ascii_isspace (c : N) : bool :=
  ((9 <=? c) && (c <=? 13)) || ((28 <=? c) && (c <=? 32)).

Definition isalnum {db : UnicodeDB} (c : N) : bool :=
  if c <? 128 then ascii_isalnum c else db_isalnum c.

Definition isspace {db : UnicodeDB} (c : N) : bool :=
  if c <? 128 then ascii_isspace c else db_isspace c.

(** A table for examples: U+0080..U+00FF classified as CPython does, nothing
    classified above U+00FF. *)
Definition latin1_db : UnicodeDB := {|
  db_isalnum c :=
    bool_decide (c ∈ [170; 178; 179; 181; 185; 186; 188; 189; 190])
    || ((192 <=? c) && (c <=? 255) && negb (c =? 215) && negb (c =? 247));
  db_isspace c := (c =? 133) || (c =? 160)
|}.

Fixpoint drop_while {A} (p : A → bool) (l : list A) : list A :=
  match l with
  | [] => []
  | x :: l' => if p x then drop_while p l' else l
  end.

(** [s.rstrip()]: the characters from the right end are dropped as long as
    they are whitespace. *)
Definition rstrip {db : UnicodeDB} (s : pystr) : pystr :=
  reverse (drop_while isspace (reverse s)).

(** [s.replace(old, new)] for a one-character [old]. *)
Definition replace (old : N) (new : pystr) (s : pystr) : pystr :=
  s ≫= (λ c, if decide (c = old) then new else [c]).

(** ** Python objects *)

Inductive value :=
| VNone
| VBool (b : bool)
| VInt (z : Z)
| VStr (s : pystr).

#[global] Instance value_eq_dec : EqDecision value.
Proof. solve_decision. Defined.

(** Truth value of an object, as [if x:], [while x:] and [not x] test it. *)
Definition truthy (v : value) : bool :=
  match v with
  | VNone => false
  | VBool b => b
  | VInt z => negb (z =? 0)%Z
  | VStr s => negb (bool_decide (s = []))
  end.

(** [str(x)], what a replacement field of an f-string inserts for [x]. *)
Definition py_str (v : value) : pystr :=
  match v with
  | VNone => lit "None"
  | VBool true => lit "True"
  | VBool false => lit "False"
  | VInt z => lit (NilZero.string_of_int (Z.to_int z))
  | VStr s => s
  end.

Inductive exn := TypeError | OSError.

Inductive exc (A : Type) :=
| Ok (a : A)
| Raise (e : exn).
Arguments Ok {A} a.
Arguments Raise {A} e.

#[global] Instance exc_ret : MRet exc := λ A a, Ok a.
#[global] Instance exc_bind : MBind exc := λ A B k r,
  match r with
  | Ok a => k a
  | Raise e => Raise e
  end.

(** [for c in name]: a str yields its characters; None, bool and int are not
    iterable. *)
Definition iter_chars (name : value) : exc pystr :=
  match name with
  | VStr s => Ok s
  | _ => Raise TypeError
  end.

(** ** sanitize_name *)

(** [c in (' ', '.', '_', '-')] *)
Definition in_kept_punctuation (c : N) : bool :=
  bool_decide (c ∈ [32; 46; 95; 45]).

(** [c if c.isalnum() or c in (' ', '.', '_', '-') else '_'] *)
Definition sanitize_char {db : UnicodeDB} (c : N) : N :=
  if isalnum c || in_kept_punctuation c then c else 95.

Definition sanitize_name {db : UnicodeDB} (name : value) : exc pystr :=
  s ← iter_chars name;
  Ok (rstrip (sanitize_char <$> s)).

(** ** JSON request bodies and API responses *)

Inductive json :=
| JScalar (v : value)
| JArray (l : list json)
| JObject (m : gmap string json).

Definition JStr (s : string) : json := JScalar (VStr (lit s)).

(** A dict display [{k1: v1, k2: v2, ...}]. *)
Definition dict (items : list (string * json)) : json := JObject (list_to_map items).

(** A decoded response of the query endpoint: a JSON object whose key
    [result], when present, holds a list of metadata records, and whose key
    [queryToken], when present, holds a scalar. *)
Record response := Response {
  result : option (list (gmap string value));
  queryToken : option value
}.

(** [d.get(key)] and [d.get(key, default)] *)
Definition dict_get (d : gmap string value) (key : string) : value :=
  default VNone (d !! key).

Definition dict_get_default (d : gmap string value) (key : string) (dflt : value) : value :=
  default dflt (d !! key).

(** [not response or 'result' not in response]: None and the empty dict are
    falsy, and a dict without the key [result] fails the second test. *)
Definition lacks_result (response : option response) : bool :=
  match response with
  | None => true
  | Some r => negb (bool_decide (is_Some (result r)))
  end.
Arguments lacks_result : simpl never.

(** ** The world: module globals, network, file system, console *)

Inductive reply (A : Type) :=
| Replied (a : A)              (* a 2xx response; [a] is its decoded body *)
| HTTPError (text : pystr)     (* [raise_for_status] raised; [text] is [response.text] *)
| RequestException.            (* the transport failed *)
Arguments Replied {A} a.
Arguments HTTPError {A} text.
Arguments RequestException {A}.

Inductive verb := POST | GET | OtherVerb (method : pystr).

Inductive payload :=
| NoPayload
| JsonPayload (j : json)
| DataPayload (data : pystr).

Record request := Request {
  req_verb : verb;
  req_url : pystr;
  req_auth : pystr * value;
  req_headers : gmap string string;
  req_payload : payload
}.

Inductive write_result :=
| Written
| OpenFailed                       (* [open] raised: nothing changes *)
| WriteFailed (partial : pystr).   (* the file was opened, writing raised *)

(** What the operating system answers, by the number of calls made so far. *)
Record os_model := OsModel {
  makedirs_ok : nat → pystr → bool;
  write_file_result : nat → pystr → pystr → write_result
}.

(** The messages of the program's [print] calls, each with the values its
    f-string inserts. *)
Inductive line :=
| UnsupportedMethod (method : pystr)
| HttpErrorOccurred
| ResponseContent (text : pystr)
| ErrorOccurred
| FetchingAllMetadata
| FailedInitialMetadata
| RetrievedSoFar (n : nat)
| HttpErrorDuringPagination
| ErrorDuringPagination
| FailedSubsequentPage
| TotalComponentsFound (n : nat)
| NullOrEmptyId
| HttpErrorFetching (component_id : value)
| ErrorFetching (component_id : value)
| EnvVarsMissing
| PleaseCreateEnvFile
| CreatedExportDirectory (path : pystr)
| NoComponentsToExport
| StartingExport
| Skipping (i n : nat) (component_name : value) (comp_meta : gmap string value)
| Exporting (i n : nat) (component_name version component_id : value)
| TypeAndFolder (component_type folder_name : value)
| CouldNotCreateDirectory (path : pystr)
| SuccessfullySaved (path : pystr)
| CouldNotWrite (path : pystr)
| FailedToRetrieve (component_id : value)
| ExportComplete.

Record world := World {
  BOOMI_ACCOUNT_ID : value;               (* os.getenv: None or a str *)
  BOOMI_USERNAME : value;
  BOOMI_API_TOKEN : value;
  BASE_URL : pystr;
  json_replies : list (reply response);   (* the query endpoint's answers, in call order *)
  xml_replies : list (reply pystr);       (* the document endpoint's answers, in call order *)
  requests : list request;                (* the requests sent, oldest first *)
  os : os_model;
  os_clock : nat;
  directories : gset pystr;
  files : gmap pystr pystr;
  console : list line                     (* oldest first *)
}.

Definition print (l : line) (w : world) : world :=
  World (BOOMI_ACCOUNT_ID w) (BOOMI_USERNAME w) (BOOMI_API_TOKEN w) (BASE_URL w)
    (json_replies w) (xml_replies w) (requests w) (os w) (os_clock w)
    (directories w) (files w) (console w ++ [l]).

Definition set_BASE_URL (url : pystr) (w : world) : world :=
  World (BOOMI_ACCOUNT_ID w) (BOOMI_USERNAME w) (BOOMI_API_TOKEN w) url
    (json_replies w) (xml_replies w) (requests w) (os w) (os_clock w)
    (directories w) (files w) (console w).

(** The answer to the next request: the head of the script; when the script
    has no answer left the transport fails. *)
Definition next_reply {A} (script : list (reply A)) : reply A :=
  match script with
  | r :: _ => r
  | [] => RequestException
  end.

(** The request leaves and the next answer of the JSON endpoint comes back. *)
Definition send_json (rq : request) (w : world) : reply response * world :=
  (next_reply (json_replies w),
   World (BOOMI_ACCOUNT_ID w) (BOOMI_USERNAME w) (BOOMI_API_TOKEN w) (BASE_URL w)
     (tail (json_replies w)) (xml_replies w) (requests w ++ [rq]) (os w) (os_clock w)
     (directories w) (files w) (console w)).

Definition send_xml (rq : request) (w : world) : reply pystr * world :=
  (next_reply (xml_replies w),
   World (BOOMI_ACCOUNT_ID w) (BOOMI_USERNAME w) (BOOMI_API_TOKEN w) (BASE_URL w)
     (json_replies w) (tail (xml_replies w)) (requests w ++ [rq]) (os w) (os_clock w)
     (directories w) (files w) (console w)).

(** [os.path.exists(path)] *)
Definition path_exists (path : pystr) (w : world) : bool :=
  bool_decide (path ∈ directories w) || bool_decide (is_Some (files w !! path)).

(** [os.makedirs(path)]: [true] when it returns, [false] when it raises OSError. *)
Definition makedirs (path : pystr) (w : world) : bool * world :=
  let ok := makedirs_ok (os w) (os_clock w) path in
  (ok,
   World (BOOMI_ACCOUNT_ID w) (BOOMI_USERNAME w) (BOOMI_API_TOKEN w) (BASE_URL w)
     (json_replies w) (xml_replies w) (requests w) (os w) (S (os_clock w))
     (if ok then {[path]} ∪ directories w else directories w) (files w) (console w)).

(** [with open(path, 'w', encoding='utf-8') as f: f.write(text)]: [true] when
    the block completes, [false] when it raises IOError. *)
Definition write_file (path text : pystr) (w : world) : bool * world :=
  let r := write_file_result (os w) (os_clock w) path text in
  (match r with Written => true | _ => false end,
   World (BOOMI_ACCOUNT_ID w) (BOOMI_USERNAME w) (BOOMI_API_TOKEN w) (BASE_URL w)
     (json_replies w) (xml_replies w) (requests w) (os w) (S (os_clock w))
     (directories w)
     (match r with
      | Written => <[path := text]> (files w)
      | OpenFailed => files w
      | WriteFailed partial => <[path := partial]> (files w)
      end)
     (console w)).

(** ** The API client *)

(** [(f"BOOMI_TOKEN.{BOOMI_USERNAME}", BOOMI_API_TOKEN)] *)
Definition basic_auth (w : world) : pystr * value :=
  (lit "BOOMI_TOKEN." ++ py_str (BOOMI_USERNAME w), BOOMI_API_TOKEN w).

Definition json_headers : gmap string string :=
  list_to_map [("Accept", "application/json"); ("Content-Type", "application/json")]%string.

(** The body of the first query: the filter [deleted = false and
    currentVersion = true], keys in the order of the source. *)
Definition initial_payload : json :=
  dict [("QueryFilter",
    dict [("expression",
      dict [("operator", JStr "and");
            ("nestedExpression", JArray [
               dict [("argument", JArray [JStr "false"]);
                     ("operator", JStr "EQUALS");
                     ("property", JStr "deleted")];
               dict [("argument", JArray [JStr "true"]);
                     ("operator", JStr "EQUALS");
                     ("property", JStr "currentVersion")]])])])]%string.

Definition make_api_request (endpoint : pystr) (method : verb) (payload : option json)
    (w : world) : option response * world :=
  let url := BASE_URL w ++ endpoint in
  let auth := basic_auth w in
  let headers := json_headers in
  let handle (sent : reply response * world) : option response * world :=
    match sent with
    | (Replied response, w) => (Some response, w)
    | (HTTPError text, w) => (None, print (ResponseContent text) (print HttpErrorOccurred w))
    | (RequestException, w) => (None, print ErrorOccurred w)
    end in
  match method with
  | POST =>
      handle (send_json (Request POST url auth headers
                (match payload with Some j => JsonPayload j | None => NoPayload end)) w)
  | GET => handle (send_json (Request GET url auth headers NoPayload) w)
  | OtherVerb m => (None, print (UnsupportedMethod m) w)
  end.

(** The XML envelope of a continuation request; 34 is the double quote. *)
Definition more_payload_xml (query_token : value) : pystr :=
  lit "<QueryMoreRequest xmlns=" ++ [34] ++ lit "http://api.platform.boomi.com/api/rest/v1/"
    ++ [34] ++ lit "><queryToken>" ++ py_str query_token
    ++ lit "</queryToken></QueryMoreRequest>".

Definition more_headers : gmap string string :=
  list_to_map [("Accept", "application/json"); ("Content-Type", "application/xml")]%string.

Definition query_more_request (query_token : value) (w : world) : request :=
  Request POST (BASE_URL w ++ lit "/ComponentMetadata/query") (basic_auth w) more_headers
    (DataPayload (more_payload_xml query_token)).

(** [while query_token: ...], one unfolding per unit of [fuel].  Every turn
    that goes round again has taken one answer off [json_replies], so
    [get_all_components] below starts the loop with more fuel than it can
    use (lemma [query_more_pages_fuel]). *)
Fixpoint query_more_pages (fuel : nat) (query_token : value)
    (all_components : list (gmap string value)) (w : world)
    : list (gmap string value) * world :=
  match fuel with
  | O => (all_components, w)
  | S fuel =>
    if truthy query_token then
      match send_json (query_more_request query_token w) w with
      | (HTTPError text, w) =>
          (all_components, print (ResponseContent text) (print HttpErrorDuringPagination w))
      | (RequestException, w) =>
          (all_components, print ErrorDuringPagination w)
      | (Replied response, w) =>
          if lacks_result (Some response) then
            (all_components, print FailedSubsequentPage w)
          else
            let all_components := all_components ++ default [] (result response) in
            let w := print (RetrievedSoFar (length all_components)) w in
            query_more_pages fuel (default VNone (queryToken response)) all_components w
      end
    else (all_components, w)
  end.

Definition get_all_components (w : world) : list (gmap string value) * world :=
  let w := print FetchingAllMetadata w in
  let all_components := [] in
  let '(response, w) :=
    make_api_request (lit "/ComponentMetadata/query") POST (Some initial_payload) w in
  if lacks_result response then ([], print FailedInitialMetadata w)
  else
    let all_components := all_components ++ default [] (response ≫= result) in
    let w := print (RetrievedSoFar (length all_components)) w in
    let query_token := default VNone (response ≫= queryToken) in
    let '(all_components, w) :=
      query_more_pages (S (length (json_replies w))) query_token all_components w in
    (all_components, print (TotalComponentsFound (length all_components)) w).

(** Returns the XML text, or None. *)
Definition get_component_definition (component_id : value) (w : world) : value * world :=
  if negb (truthy component_id) then (VNone, print NullOrEmptyId w)
  else
    let endpoint := lit "/Component/" ++ py_str component_id in
    let url := BASE_URL w ++ endpoint in
    let auth := basic_auth w in
    let headers : gmap string string := {[ "Accept" := "application/xml" ]}%string in
    match send_xml (Request GET url auth headers NoPayload) w with
    | (Replied text, w) => (VStr text, w)
    | (HTTPError _, w) => (VNone, print (HttpErrorFetching component_id) w)
    | (RequestException, w) => (VNone, print (ErrorFetching component_id) w)
    end.

(** ** Paths *)

Definition EXPORT_DIRECTORY : pystr := lit "boomi_export".

(** [os.sep] and [os.path.join] are the POSIX ones (posixpath); 47 is the
    slash. *)
Definition os_sep : pystr := [47].

Definition path_join (a b : pystr) : pystr :=
  if bool_decide (head b = Some 47) then b
  else if bool_decide (a = []) || bool_decide (last a = Some 47) then a ++ b
  else a ++ os_sep ++ b.

(** [os.path.join(EXPORT_DIRECTORY, sanitized_folder.replace('/', os.sep))] *)
Definition local_folder_path_of (sanitized_folder : pystr) : pystr :=
  path_join EXPORT_DIRECTORY (replace 47 os_sep sanitized_folder).

(** [f"{sanitized_name}_v{version}_{component_id}.xml"] *)
Definition file_name_of (sanitized_name : pystr) (version component_id : value) : pystr :=
  sanitized_name ++ lit "_v" ++ py_str version ++ lit "_" ++ py_str component_id ++ lit ".xml".

(** [comp_meta.get('folderName', 'No Folder')] and
    [comp_meta.get('name', 'Unnamed Component')] *)
Definition folder_name_of (comp_meta : gmap string value) : value :=
  dict_get_default comp_meta "folderName" (VStr (lit "No Folder")).

Definition component_name_of (comp_meta : gmap string value) : value :=
  dict_get_default comp_meta "name" (VStr (lit "Unnamed Component")).

(** The file path the walker computes for a record (lines 233-250), when
    both calls of [sanitize_name] return. *)
Definition target_path {db : UnicodeDB} (comp_meta : gmap string value) : exc pystr :=
  sanitized_folder ← sanitize_name (folder_name_of comp_meta);
  sanitized_name ← sanitize_name (component_name_of comp_meta);
  Ok (path_join (local_folder_path_of sanitized_folder)
        (file_name_of sanitized_name (dict_get comp_meta "version")
                      (dict_get comp_meta "componentId"))).

(** ** The export walker and main *)

(** How a statement ends: normally, or with an exception that nothing
    catches. *)
Inductive outcome :=
| Normal (w : world)
| Raised (e : exn) (w : world).

(** [if not os.path.exists(path): try: os.makedirs(path) except OSError: ...]:
    [false] when the directory was missing and could not be made. *)
Definition ensure_folder (local_folder_path : pystr) (w : world) : bool * world :=
  if negb (path_exists local_folder_path w) then makedirs local_folder_path w
  else (true, w).

(** The body of the [for] loop of [main] for record number [i] of [n]. *)
Definition export_component {db : UnicodeDB} (i n : nat) (comp_meta : gmap string value)
    (w : world) : outcome :=
  let component_id := dict_get comp_meta "componentId" in
  let component_name := component_name_of comp_meta in
  let version := dict_get comp_meta "version" in
  if negb (truthy component_id) then
    Normal (print (Skipping (i + 1) n component_name comp_meta) w)
  else
    let component_type := dict_get comp_meta "type" in
    let folder_name := folder_name_of comp_meta in
    let w := print (Exporting (i + 1) n component_name version component_id) w in
    let w := print (TypeAndFolder component_type folder_name) w in
    match sanitize_name folder_name with
    | Raise e => Raised e w
    | Ok sanitized_folder =>
      let local_folder_path := local_folder_path_of sanitized_folder in
      let '(have_folder, w) := ensure_folder local_folder_path w in
      if negb have_folder then
        Normal (print (CouldNotCreateDirectory local_folder_path) w)
      else
        let '(component_xml, w) := get_component_definition component_id w in
        if truthy component_xml then
          match sanitize_name component_name with
          | Raise e => Raised e w
          | Ok sanitized_name =>
            let file_name := file_name_of sanitized_name version component_id in
            let file_path := path_join local_folder_path file_name in
            let '(saved, w) := write_file file_path (py_str component_xml) w in
            if saved then Normal (print (SuccessfullySaved file_path) w)
            else Normal (print (CouldNotWrite file_path) w)
          end
        else Normal (print (FailedToRetrieve component_id) w)
    end.

(** [for i, comp_meta in enumerate(components)], from index [i] on. *)
Fixpoint export_components {db : UnicodeDB} (i n : nat) (components : list (gmap string value))
    (w : world) : outcome :=
  match components with
  | [] => Normal w
  | comp_meta :: rest =>
    match export_component i n comp_meta w with
    | Normal w => export_components (S i) n rest w
    | Raised e w => Raised e w
    end
  end.

Definition main {db : UnicodeDB} (w : world) : outcome :=
  if negb (truthy (BOOMI_ACCOUNT_ID w) && truthy (BOOMI_USERNAME w)
           && truthy (BOOMI_API_TOKEN w)) then
    Normal (print PleaseCreateEnvFile (print EnvVarsMissing w))
  else
    let w := set_BASE_URL (lit "https://api.boomi.com/api/rest/v1/"
                           ++ py_str (BOOMI_ACCOUNT_ID w)) w in
    let '(have_root, w) :=
      if negb (path_exists EXPORT_DIRECTORY w) then
        match makedirs EXPORT_DIRECTORY w with
        | (true, w) => (true, print (CreatedExportDirectory EXPORT_DIRECTORY) w)
        | (false, w) => (false, w)
        end
      else (true, w) in
    if negb have_root then Raised OSError w
    else
      let '(components, w) := get_all_components w in
      if bool_decide (components = []) then Normal (print NoComponentsToExport w)
      else
        let w := print StartingExport w in
        match export_components 0 (length components) components w with
        | Normal w => Normal (print ExportComplete w)
        | Raised e w => Raised e w
        end.

(** ** Definitions used by the statements *)

(** The first request of the pagination driver. *)
Definition initial_query_request (w : world) : request :=
  Request POST (BASE_URL w ++ lit "/ComponentMetadata/query") (basic_auth w) json_headers
    (JsonPayload initial_payload).

(** The query body as the specification writes it (section 6), keys in the
    specification's order: the counterpart of [initial_payload]. *)
Definition spec_query_body : json :=
  dict [("QueryFilter",
    dict [("expression",
      dict [("operator", JStr "and");
            ("nestedExpression", JArray [
               dict [("property", JStr "deleted");
                     ("operator", JStr "EQUALS");
                     ("argument", JArray [JStr "false"])];
               dict [("property", JStr "currentVersion");
                     ("operator", JStr "EQUALS");
                     ("argument", JArray [JStr "true"])]])])])]%string.

(** The characters [sanitize_name] keeps. *)
Definition kept {db : UnicodeDB} (c : N) : Prop :=
  isalnum c = true ∨ c ∈ lit " ._-".

(** A request that got no 2xx answer. *)
Definition failed {A} (r : reply A) : Prop :=
  match r with
  | Replied _ => False
  | _ => True
  end.

(** A configuration value that is missing or empty. *)
Definition missing_or_empty (v : value) : Prop := v = VNone ∨ v = VStr [].

(** A response that carries a page of records and a continuation token: a
    token is a value the loop's test [while query_token] takes for one. *)
Definition page_with_token (r : response) (page : list (gmap string value)) (token : value) : Prop :=
  result r = Some page ∧ queryToken r = Some token ∧ truthy token = true.

Definition world_of (o : outcome) : world :=
  match o with
  | Normal w => w
  | Raised _ w => w
  end.


(** The world with another script for the document endpoint. *)
Definition set_xml_replies (script : list (reply pystr)) (w : world) : world :=
  World (BOOMI_ACCOUNT_ID w) (BOOMI_USERNAME w) (BOOMI_API_TOKEN w) (BASE_URL w)
    (json_replies w) script (requests w) (os w) (os_clock w)
    (directories w) (files w) (console w).

(** The world when the body has announced the record: the two progress lines
    are on the console. *)
Definition announced (i n : nat) (r : gmap string value) (w : world) : world :=
  print (TypeAndFolder (dict_get r "type") (folder_name_of r))
    (print (Exporting (i + 1) n (component_name_of r) (dict_get r "version")
              (dict_get r "componentId")) w).


(** The records of the pages, in order. *)
Definition records_of (pages : list response) : list (gmap string value) :=
  pages ≫= λ r, default [] (result r).






(** ** Example data *)

Definition record (component_id name : string) (version : Z) (folder : string)
    : gmap string value :=
  list_to_map [("componentId", VStr (lit component_id)); ("name", VStr (lit name));
               ("version", VInt version); ("type", VStr (lit "transform.map"));
               ("folderName", VStr (lit folder))]%string.

Definition invoice_map_123 : gmap string value := record "123" "Invoice Map" 1 "Finance".
Definition invoice_map_456 : gmap string value := record "456" "Invoice Map" 1 "Finance".

(** Two records with different ids, names and versions whose file names
    coincide: both are [A_v1_v2_x.xml]. *)
Definition colliding_a : gmap string value := record "v2_x" "A" 1 "F".
Definition colliding_b : gmap string value := record "x" "A_v1" 2 "F".




Definition null_folder_record : gmap string value :=
  list_to_map [("componentId", VStr (lit "c2")); ("name", VStr (lit "Orders"));
               ("version", VInt 1); ("folderName", VNone)]%string.

(** An operating system on which every call succeeds, and one on which
    directories cannot be made, and one on which files cannot be opened. *)
Definition willing_os : os_model := OsModel (λ _ _, true) (λ _ _ _, Written).
Definition no_mkdir_os : os_model := OsModel (λ _ _, false) (λ _ _ _, Written).

(** A world with the three credentials set, an empty disk and console, and
    the given network script and operating system. *)
Definition fresh_world (queries : list (reply response)) (documents : list (reply pystr))
    (o : os_model) : world :=
  World (VStr (lit "acct-1")) (VStr (lit "user@example.com")) (VStr (lit "secret"))
    [] queries documents [] o 0 ∅ ∅ [].

(** The same world with an empty API token. *)
Definition world_without_token : world :=
  World (VStr (lit "acct-1")) (VStr (lit "user@example.com")) (VStr [])
    [] [Replied (Response (Some [invoice_map_123]) None)] [Replied (lit "<Component/>")]
    [] willing_os 0 ∅ ∅ [].


Definition page_1 : response := Response (Some [invoice_map_123]) (Some (VStr (lit "T1"))).
Definition page_2 : response := Response (Some [invoice_map_456]) (Some (VStr (lit "T2"))).
Definition page_3 : response := Response (Some [colliding_a; colliding_b]) None.

(** A first page whose token is the empty string. *)
Definition page_empty_token : response := Response (Some [invoice_map_123]) (Some (VStr [])).

(** ** Definitions used by the further properties *)

(** An answer the driver cannot use: the request failed, or the 2xx body has
    no [result]. *)
Definition unusable (r : reply response) : Prop :=
  match r with
  | Replied resp => result resp = None
  | _ => True
  end.

(** A page that carries a token, whichever. *)
Definition tokened (r : response) : Prop := ∃ page t, page_with_token r page t.

(** A continuation request of the world [w]: the XML envelope of some token
    the loop accepted. *)
Definition is_query_more (w : world) (rq : request) : Prop :=
  ∃ token, truthy token = true ∧ rq = query_more_request token w.

(** What the pagination driver leaves alone. *)
Definition same_outside_query (w w' : world) : Prop :=
  BOOMI_ACCOUNT_ID w' = BOOMI_ACCOUNT_ID w ∧ BOOMI_USERNAME w' = BOOMI_USERNAME w
  ∧ BOOMI_API_TOKEN w' = BOOMI_API_TOKEN w ∧ BASE_URL w' = BASE_URL w
  ∧ xml_replies w' = xml_replies w ∧ os w' = os w ∧ os_clock w' = os_clock w
  ∧ directories w' = directories w ∧ files w' = files w.

(** The request [get_component_definition] sends for an id. *)
Definition document_request (component_id : value) (w : world) : request :=
  Request GET (BASE_URL w ++ lit "/Component/" ++ py_str component_id) (basic_auth w)
    {[ "Accept" := "application/xml" ]}%string NoPayload.

(** What the export walker leaves alone: the credentials, the base URL, the
    query endpoint's script and the operating system's behaviour. *)
Definition same_outside_export (w w' : world) : Prop :=
  BOOMI_ACCOUNT_ID w' = BOOMI_ACCOUNT_ID w ∧ BOOMI_USERNAME w' = BOOMI_USERNAME w
  ∧ BOOMI_API_TOKEN w' = BOOMI_API_TOKEN w ∧ BASE_URL w' = BASE_URL w
  ∧ json_replies w' = json_replies w ∧ os w' = os w.

(** [f"https://api.boomi.com/api/rest/v1/{BOOMI_ACCOUNT_ID}"] *)
Definition account_base_url (w : world) : pystr :=
  lit "https://api.boomi.com/api/rest/v1/" ++ py_str (BOOMI_ACCOUNT_ID w).

(** The three configuration values are there. *)
Definition configured (w : world) : Prop :=
  truthy (BOOMI_ACCOUNT_ID w) = true ∧ truthy (BOOMI_USERNAME w) = true
  ∧ truthy (BOOMI_API_TOKEN w) = true.

(** [main] between the configuration check and the query (lines 201-206):
    the base URL is set and the export directory is made when it is missing;
    [false] when [os.makedirs] raised. *)
Definition root_ready (w : world) : bool * world :=
  let w := set_BASE_URL (account_base_url w) w in
  if negb (path_exists EXPORT_DIRECTORY w) then
    match makedirs EXPORT_DIRECTORY w with
    | (true, w) => (true, print (CreatedExportDirectory EXPORT_DIRECTORY) w)
    | (false, w) => (false, w)
    end
  else (true, w).

(** The records [main] hands to the walker. *)
Definition listed_components (w : world) : list (gmap string value) :=
  fst (get_all_components (snd (root_ready w))).

(** The messages of the two guards inside the API client: the unsupported
    method of [make_api_request] and the missing id of
    [get_component_definition]. *)
Definition guard_message (l : line) : bool :=
  match l with
  | UnsupportedMethod _ | NullOrEmptyId => true
  | _ => false
  end.

(** The counter [i/n] of a line that opens a record, [SKIPPING] or
    [Exporting]. *)
Definition progress_of (l : line) : option (nat * nat) :=
  match l with
  | Skipping i n _ _ | Exporting i n _ _ _ => Some (i, n)
  | _ => None
  end.

(** What a piece of the program printed: the console grew by [new]. *)
Definition printed (w w' : world) (new : list line) : Prop :=
  console w' = console w ++ new.

(** A 2xx answer without [result]. *)
Definition page_without_result : response := Response None (Some (VStr (lit "T9"))).


(** ** Properties of the name sanitizer *)

Section Sanitizer.
Context {db : UnicodeDB}.

Lemma drop_while_split {A} (p : A → bool) (l : list A) :
  ∃ dropped, l = dropped ++ drop_while p l ∧ Forall (λ x, p x = true) dropped.
Proof.
  induction l as [|x l IH]; simpl.
  - by exists [].
  - destruct (p x) eqn:Hx.
    + destruct IH as (d & Hd & Hall). exists (x :: d). split.
      * simpl. by f_equal.
      * by constructor.
    + by exists [].
Qed.

Lemma drop_while_head {A} (p : A → bool) (l : list A) (x : A) :
  head (drop_while p l) = Some x → p x = false.
Proof.
  induction l as [|y l IH]; simpl; [done|].
  destruct (p y) eqn:Hy; [done|]. simpl. by intros [= <-].
Qed.

Lemma drop_while_id {A} (p : A → bool) (l : list A) :
  (∀ x, head l = Some x → p x = false) → drop_while p l = l.
Proof.
  destruct l as [|y l]; simpl; [done|]. intros Hh. by rewrite (Hh y eq_refl).
Qed.

(** What [rstrip] removes is a run of whitespace at the right end. *)
Lemma rstrip_split (s : pystr) :
  ∃ trimmed, s = rstrip s ++ trimmed ∧ Forall (λ c, isspace c = true) trimmed.
Proof.
  destruct (drop_while_split isspace (reverse s)) as (d & Hd & Hall).
  exists (reverse d). split.
  - unfold rstrip. rewrite <- reverse_app, <- Hd. by rewrite reverse_involutive.
  - by apply Forall_reverse.
Qed.

Lemma rstrip_last (s : pystr) (c : N) :
  last (rstrip s) = Some c → isspace c = false.
Proof.
  unfold rstrip. rewrite last_reverse. apply drop_while_head.
Qed.

Lemma rstrip_id (s : pystr) :
  (∀ c, last s = Some c → isspace c = false) → rstrip s = s.
Proof.
  intros Hl. unfold rstrip. rewrite drop_while_id.
  - apply reverse_involutive.
  - intros c. rewrite head_reverse. apply Hl.
Qed.

Lemma rstrip_idemp (s : pystr) : rstrip (rstrip s) = rstrip s.
Proof. apply rstrip_id, rstrip_last. Qed.

Lemma rstrip_elem (s : pystr) (c : N) : c ∈ rstrip s → c ∈ s.
Proof.
  destruct (rstrip_split s) as (t & Hs & _). intros Hc.
  rewrite Hs. apply elem_of_app. by left.
Qed.

Lemma kept_spec (c : N) : isalnum c || in_kept_punctuation c = true ↔ kept c.
Proof.
  unfold kept, in_kept_punctuation. rewrite orb_true_iff, bool_decide_eq_true. done.
Qed.

Lemma sanitize_char_kept (c : N) : kept (sanitize_char c).
Proof.
  unfold sanitize_char. destruct (isalnum c || in_kept_punctuation c) eqn:Hc.
  - by apply kept_spec.
  - right. apply (bool_decide_unpack _). by vm_compute.
Qed.

Lemma sanitize_char_id (c : N) : kept c → sanitize_char c = c.
Proof. intros Hc. apply kept_spec in Hc. unfold sanitize_char. by rewrite Hc. Qed.

Lemma sanitize_char_other (c : N) : ¬ kept c → sanitize_char c = 95.
Proof.
  intros Hc. unfold sanitize_char.
  destruct (isalnum c || in_kept_punctuation c) eqn:E; [|done].
  by apply kept_spec in E.
Qed.

Lemma underscore_not_space : isspace 95 = false.
Proof. reflexivity. Qed.

Lemma sanitize_fixes_kept (s : pystr) :
  Forall kept s → sanitize_char <$> s = s.
Proof.
  induction 1 as [|c s Hc _ IH]; [done|].
  by rewrite fmap_cons, sanitize_char_id, IH.
Qed.

Lemma sanitized_all_kept (s : pystr) : Forall kept (rstrip (sanitize_char <$> s)).
Proof.
  apply Forall_forall. intros c Hc. apply rstrip_elem in Hc.
  apply list_elem_of_fmap in Hc as (c0 & -> & _). apply sanitize_char_kept.
Qed.

(** C4: on every string [sanitize_name] returns, and its output holds only
    alphanumeric characters, space, period, underscore and hyphen, does not
    end in whitespace, is no longer than the input, has at every position it
    retains the input's character when that character is one of the kept
    ones and an underscore otherwise, and what it leaves off at the right end
    are kept characters of the input that are whitespace. *)
Theorem sanitize_name_output (s : pystr) :
  ∃ out, sanitize_name (VStr s) = Ok out
    ∧ (∀ c, c ∈ out → kept c)
    ∧ (∀ c, last out = Some c → isspace c = false)
    ∧ (length out ≤ length s)%nat
    ∧ (∀ i c, s !! i = Some c → (i < length out)%nat →
         (kept c → out !! i = Some c) ∧ (¬ kept c → out !! i = Some 95))
    ∧ (∀ i c, s !! i = Some c → (length out ≤ i)%nat → kept c ∧ isspace c = true).
Proof.
  exists (rstrip (sanitize_char <$> s)). split; [reflexivity|].
  destruct (rstrip_split (sanitize_char <$> s)) as (trimmed & Hsplit & Hspace).
  set (out := rstrip (sanitize_char <$> s)) in *.
  assert (Hlen : length s = (length out + length trimmed)%nat).
  { rewrite <- (length_fmap sanitize_char s), Hsplit. apply length_app. }
  split; [|split; [|split; [|split]]].
  - intros c Hc. by apply (proj1 (Forall_forall _ _) (sanitized_all_kept s)).
  - apply rstrip_last.
  - lia.
  - intros i c Hi Hlt.
    assert (Hout : out !! i = Some (sanitize_char c)).
    { rewrite <- (lookup_app_l out trimmed) by done.
      rewrite <- Hsplit, list_lookup_fmap, Hi. done. }
    split; intros Hc.
    + by rewrite Hout, sanitize_char_id.
    + by rewrite Hout, sanitize_char_other.
  - intros i c Hi Hge.
    assert (Htr : trimmed !! (i - length out)%nat = Some (sanitize_char c)).
    { rewrite <- (lookup_app_r out trimmed) by done.
      rewrite <- Hsplit, list_lookup_fmap, Hi. done. }
    pose proof (proj1 (Forall_lookup _ _) Hspace _ _ Htr) as Hsp. simpl in Hsp.
    destruct (isalnum c || in_kept_punctuation c) eqn:Hk.
    + apply kept_spec in Hk. split; [done|]. by rewrite sanitize_char_id in Hsp.
    + unfold sanitize_char in Hsp. rewrite Hk in Hsp.
      by rewrite underscore_not_space in Hsp.
Qed.

(** C5: [sanitize_name] is idempotent, sanitize(sanitize(s)) = sanitize(s)
    for every string [s], and it is a function of its argument alone: two
    calls on the same argument give the same result. *)
Theorem sanitize_name_idempotent (s : pystr) :
  (sanitize_name (VStr s) ≫= λ out, sanitize_name (VStr out)) = sanitize_name (VStr s)
  ∧ (∀ (name : value) (out1 out2 : exc pystr),
       sanitize_name name = out1 → sanitize_name name = out2 → out1 = out2).
Proof.
  split; [|congruence].
  unfold sanitize_name. simpl. f_equal.
  rewrite (sanitize_fixes_kept (rstrip (sanitize_char <$> s)))
    by apply sanitized_all_kept.
  apply rstrip_idemp.
Qed.

End Sanitizer.

(** ** Properties of the pagination driver *)

Section Pagination.

Lemma requests_print (l : line) (w : world) : requests (print l w) = requests w.
Proof. reflexivity. Qed.

Lemma initial_payload_spec : initial_payload = spec_query_body.
Proof. vm_compute. reflexivity. Qed.

(** One turn of the loop that receives a page. *)
Lemma query_more_pages_page fuel token acc w r rs page :
  truthy token = true → json_replies w = Replied r :: rs → result r = Some page →
  query_more_pages (S fuel) token acc w =
    query_more_pages fuel (default VNone (queryToken r)) (acc ++ page)
      (print (RetrievedSoFar (length (acc ++ page)))
         (snd (send_json (query_more_request token w) w))).
Proof.
  intros Ht Hw Hres. simpl. rewrite Ht. unfold send_json. rewrite Hw. simpl.
  unfold lacks_result. by rewrite Hres.
Qed.

Lemma query_more_pages_no_token fuel token acc w :
  truthy token = false → query_more_pages fuel token acc w = (acc, w).
Proof. intros Ht. destruct fuel; simpl; [done|]. by rewrite Ht. Qed.

(** The loop only adds requests. *)
Lemma query_more_pages_requests fuel token acc w :
  ∃ later, requests (snd (query_more_pages fuel token acc w)) = requests w ++ later.
Proof.
  revert token acc w. induction fuel as [|fuel IH]; intros token acc w; simpl.
  - exists []. by rewrite app_nil_r.
  - destruct (truthy token); [|exists []; by rewrite app_nil_r].
    unfold send_json.
    destruct (json_replies w) as [|[resp|text|] rs] eqn:Hr; simpl;
      try (eexists [_]; reflexivity).
    destruct (lacks_result (Some resp)); simpl; [eexists [_]; reflexivity|].
    match goal with |- context [query_more_pages fuel ?t ?a ?w'] =>
      destruct (IH t a w') as (later & ->) end.
    simpl. eexists (_ :: later). by rewrite <- app_assoc.
Qed.

(** The loop only adds records: what was accumulated stays. *)
Lemma query_more_pages_prefix fuel token acc w :
  acc `prefix_of` fst (query_more_pages fuel token acc w).
Proof.
  revert token acc w. induction fuel as [|fuel IH]; intros token acc w; simpl; [done|].
  destruct (truthy token); [|done].
  unfold send_json.
  destruct (json_replies w) as [|[resp|text|] rs] eqn:Hr; simpl; try done.
  destruct (lacks_result (Some resp)); simpl; [done|].
  etrans; [|apply IH]. by apply prefix_app_r.
Qed.

(** The loop never runs out of fuel: any two amounts above the number of
    answers left give the same run. *)
Lemma query_more_pages_fuel fuel1 fuel2 token acc w :
  (length (json_replies w) < fuel1)%nat → (length (json_replies w) < fuel2)%nat →
  query_more_pages fuel1 token acc w = query_more_pages fuel2 token acc w.
Proof.
  revert fuel2 token acc w.
  induction fuel1 as [|fuel1 IH]; intros fuel2 token acc w H1 H2; [lia|].
  destruct fuel2 as [|fuel2]; [lia|]. simpl.
  destruct (truthy token); [|done].
  unfold send_json.
  destruct (json_replies w) as [|[resp|text|] rs] eqn:Hr; simpl; try done.
  destruct (lacks_result (Some resp)); simpl; [done|].
  apply IH; simpl in *; lia.
Qed.

Lemma query_more_pages_until_failure pages : ∀ fuel token acc w bad rest,
  (length pages < fuel)%nat → truthy token = true →
  json_replies w = (Replied <$> pages) ++ bad :: rest →
  Forall (λ r, ∃ page t, page_with_token r page t) pages →
  failed bad →
  fst (query_more_pages fuel token acc w) = acc ++ records_of pages.
Proof.
  induction pages as [|r pages IH]; intros fuel token acc w bad rest Hf Ht Hw Hall Hbad.
  - destruct fuel as [|fuel]; [simpl in Hf; lia|]. simpl. rewrite Ht.
    unfold send_json. simpl in Hw. rewrite Hw.
    destruct bad; simpl in *; [done| |]; by rewrite app_nil_r.
  - destruct fuel as [|fuel]; [simpl in Hf; lia|].
    apply Forall_cons in Hall as [(page & t & Hres & Htok & Htt) Hall].
    rewrite fmap_cons in Hw. simpl in Hw.
    rewrite (query_more_pages_page _ _ _ _ _ _ _ Ht Hw Hres), Htok.
    rewrite (IH _ _ _ _ bad rest); try done.
    + unfold records_of. simpl. rewrite Hres. simpl. by rewrite app_assoc.
    + simpl in Hf. lia.
    + simpl. by rewrite Hw.
Qed.

(** [get_all_components] when the first answer carries a page. *)
Lemma get_all_components_first_page w r rs page :
  json_replies w = Replied r :: rs → result r = Some page →
  get_all_components w =
    let w0 := print FetchingAllMetadata w in
    let w1 := print (RetrievedSoFar (length page))
                (snd (send_json (initial_query_request w0) w0)) in
    let paged := query_more_pages (S (length rs)) (default VNone (queryToken r)) page w1 in
    (fst paged, print (TotalComponentsFound (length (fst paged))) (snd paged)).
Proof.
  intros Hw Hres.
  unfold get_all_components, make_api_request, send_json.
  cbn -[query_more_pages]. rewrite Hw. cbn -[query_more_pages].
  unfold lacks_result. rewrite Hres. cbn -[query_more_pages].
  by destruct (query_more_pages _ _ _ _).
Qed.

(** C2: when the first three answers of the query endpoint are pages
    carrying tokens T1, T2 and no token, the driver sends exactly three
    requests (the initial query, then one continuation request with T1 and
    one with T2), consumes exactly these three answers, and returns the three
    result lists concatenated in order.  A response carries a token when its
    [queryToken] is a value the loop's test accepts ([page_with_token]). *)
Theorem pagination_three_pages (w : world) (r1 r2 r3 : response)
    (rest : list (reply response)) (R1 R2 R3 : list (gmap string value)) (T1 T2 : value) :
  json_replies w = Replied r1 :: Replied r2 :: Replied r3 :: rest →
  page_with_token r1 R1 T1 → page_with_token r2 R2 T2 →
  result r3 = Some R3 → queryToken r3 = None →
  fst (get_all_components w) = R1 ++ R2 ++ R3
  ∧ requests (snd (get_all_components w)) =
      requests w ++ [initial_query_request w; query_more_request T1 w;
                     query_more_request T2 w]
  ∧ json_replies (snd (get_all_components w)) = rest.
Proof.
  intros Hw (Hr1 & Hq1 & Ht1) (Hr2 & Hq2 & Ht2) Hr3 Hq3.
  rewrite (get_all_components_first_page _ _ _ _ Hw Hr1). cbn zeta.
  cbn [length]. rewrite Hq1.
  erewrite (query_more_pages_page _ T1 _ _ r2 _ R2); [|done|simpl; by rewrite Hw|done].
  rewrite Hq2.
  erewrite (query_more_pages_page _ T2 _ _ r3 _ R3); [|done|simpl; by rewrite Hw|done].
  rewrite Hq3, query_more_pages_no_token by done.
  simpl. rewrite Hw. simpl. rewrite <- !app_assoc. done.
Qed.

Lemma pagination_three_pages_witness :
  let w := fresh_world [Replied page_1; Replied page_2; Replied page_3] [] willing_os in
  fst (get_all_components w)
    = [invoice_map_123] ++ [invoice_map_456] ++ [colliding_a; colliding_b]
  ∧ requests (snd (get_all_components w)) =
      requests w ++ [initial_query_request w; query_more_request (VStr (lit "T1")) w;
                     query_more_request (VStr (lit "T2")) w]
  ∧ json_replies (snd (get_all_components w)) = [].
Proof.
  apply (pagination_three_pages
           (fresh_world [Replied page_1; Replied page_2; Replied page_3] [] willing_os)
           page_1 page_2 page_3 []);
    repeat split; reflexivity.
Defined.

(** An empty-string token is no token for the loop: the driver stops after
    the first page. *)
Lemma pagination_empty_token_stops :
  let w := fresh_world [Replied page_empty_token; Replied page_2; Replied page_3] [] willing_os in
  fst (get_all_components w) = [invoice_map_123]
  ∧ requests (snd (get_all_components w)) = [initial_query_request w].
Proof.
  cbn zeta.
  rewrite (get_all_components_first_page _ page_empty_token
             [Replied page_2; Replied page_3] [invoice_map_123]) by reflexivity.
  cbn zeta. rewrite query_more_pages_no_token by reflexivity. done.
Qed.

(** C3: when the first query answers with records R1 and the next request
    fails (HTTP error or transport error), the driver returns exactly R1. *)
Theorem pagination_failure_keeps_first_page (w : world) (r1 : response)
    (R1 : list (gmap string value)) (bad : reply response) (rest : list (reply response)) :
  json_replies w = Replied r1 :: bad :: rest →
  result r1 = Some R1 → failed bad →
  fst (get_all_components w) = R1.
Proof.
  intros Hw Hr1 Hbad.
  rewrite (get_all_components_first_page _ _ _ _ Hw Hr1). cbn zeta. cbn [length fst].
  destruct (truthy (default VNone (queryToken r1))) eqn:Ht.
  - rewrite (query_more_pages_until_failure [] _ _ _ _ bad rest); try done.
    + apply app_nil_r.
    + simpl. lia.
    + simpl. by rewrite Hw.
  - by rewrite query_more_pages_no_token.
Qed.

Lemma pagination_failure_keeps_first_page_witness :
  fst (get_all_components
         (fresh_world [Replied page_1; HTTPError (lit "Service Unavailable")] [] willing_os))
  = [invoice_map_123].
Proof.
  apply (pagination_failure_keeps_first_page _ page_1 [invoice_map_123]
           (HTTPError (lit "Service Unavailable")) []); [reflexivity|reflexivity|exact I].
Defined.

(** The same for any number of pages: when pages carrying tokens are
    followed by a failing request, all their records are returned. *)
Lemma pagination_failure_keeps_all_pages (w : world) (r : response) (pages : list response)
    (bad : reply response) (rest : list (reply response)) :
  json_replies w = (Replied <$> (r :: pages)) ++ bad :: rest →
  Forall (λ r, ∃ page t, page_with_token r page t) (r :: pages) →
  failed bad →
  fst (get_all_components w) = records_of (r :: pages).
Proof.
  intros Hw Hall Hbad.
  apply Forall_cons in Hall as [(page & t & Hres & Htok & Htt) Hall].
  rewrite fmap_cons in Hw. simpl in Hw.
  rewrite (get_all_components_first_page _ _ _ _ Hw Hres). cbn -[query_more_pages].
  rewrite Htok. cbn -[query_more_pages].
  rewrite (query_more_pages_until_failure pages _ _ _ _ bad rest); try done.
  - unfold records_of. simpl. by rewrite Hres.
  - rewrite length_app, length_fmap. simpl. lia.
  - simpl. by rewrite Hw.
Qed.

(** C8: in every world the first request of the pagination driver is a POST
    to the query endpoint whose JSON body is the fixed filter
    [deleted = false and currentVersion = true], the body the specification
    writes out. *)
Theorem first_query_sends_fixed_filter (w : world) :
  (∃ later, requests (snd (get_all_components w))
            = requests w ++ initial_query_request w :: later)
  ∧ req_verb (initial_query_request w) = POST
  ∧ req_url (initial_query_request w) = BASE_URL w ++ lit "/ComponentMetadata/query"
  ∧ req_payload (initial_query_request w) = JsonPayload spec_query_body.
Proof.
  split; [|split; [done|split; [done|]]].
  - destruct (json_replies w) as [|[r|text|] rs] eqn:Hw.
    + exists []. unfold get_all_components, make_api_request, send_json.
      simpl. by rewrite Hw.
    + destruct (result r) as [page|] eqn:Hres.
      * rewrite (get_all_components_first_page _ _ _ _ Hw Hres). cbn zeta.
        cbn [snd].
        match goal with |- context [query_more_pages ?f ?t ?a ?w'] =>
          destruct (query_more_pages_requests f t a w') as (later & Hl) end.
        exists later. rewrite requests_print, Hl. simpl. by rewrite <- app_assoc.
      * exists []. unfold get_all_components, make_api_request, send_json.
        simpl. rewrite Hw. simpl. unfold lacks_result. by rewrite Hres.
    + exists []. unfold get_all_components, make_api_request, send_json.
      simpl. by rewrite Hw.
    + exists []. unfold get_all_components, make_api_request, send_json.
      simpl. by rewrite Hw.
  - simpl. by rewrite initial_payload_spec.
Qed.

End Pagination.

(** ** Properties of the target paths *)

Section Paths.
Context {db : UnicodeDB}.

Lemma slash_not_kept : ¬ kept 47.
Proof.
  intros [Ha|Hp]; [done|]. revert Hp. apply (bool_decide_unpack _). by vm_compute.
Qed.

Lemma sanitize_name_no_slash (name : value) (out : pystr) :
  sanitize_name name = Ok out → 47 ∉ out.
Proof.
  destruct name as [| | |s]; try done. intros [= <-] Hin.
  apply slash_not_kept. by apply (proj1 (Forall_forall _ _) (sanitized_all_kept s)).
Qed.

Lemma replace_absent (old : N) (new s : pystr) : old ∉ s → replace old new s = s.
Proof.
  unfold replace. induction s as [|c s IH]; [done|]. intros Hn.
  apply not_elem_of_cons in Hn as [Hc Hs]. rewrite bind_cons.
  destruct (decide (c = old)); [congruence|]. simpl. by rewrite IH.
Qed.





Lemma digits_no_underscore (d : Decimal.uint) : 95 ∉ lit (NilEmpty.string_of_uint d).
Proof.
  unfold lit. induction d; simpl; [apply not_elem_of_nil|..];
    (apply not_elem_of_cons; split; [by vm_compute|done]).
Qed.

Lemma py_str_int_no_underscore (z : Z) : 95 ∉ py_str (VInt z).
Proof.
  simpl. unfold NilZero.string_of_int, NilZero.string_of_uint.
  destruct (Z.to_int z) as [d|d].
  - destruct d; try apply digits_no_underscore.
    apply (bool_decide_unpack _). by vm_compute.
  - assert (Hd : 95 ∉ lit (match d with Decimal.Nil => "0" | _ => NilEmpty.string_of_uint d end)).
    { destruct d; try apply digits_no_underscore.
      apply (bool_decide_unpack _). by vm_compute. }
    unfold lit in *. simpl. apply not_elem_of_cons. split; [by vm_compute|done].
Qed.







End Paths.

(** ** Properties of the export walker and of main *)

Section Walker.
Context {db : UnicodeDB}.

Lemma missing_or_empty_falsy (v : value) : missing_or_empty v → truthy v = false.
Proof. by intros [-> | ->]. Qed.

(** C7: when one of the three configuration values is missing (None) or the
    empty string, [main] returns at once: it prints its two-line message,
    sends no request, consumes no answer of the network, and leaves the disk
    as it was. *)
Theorem main_aborts_without_credentials (w : world) :
  missing_or_empty (BOOMI_ACCOUNT_ID w) ∨ missing_or_empty (BOOMI_USERNAME w)
    ∨ missing_or_empty (BOOMI_API_TOKEN w) →
  main w = Normal (print PleaseCreateEnvFile (print EnvVarsMissing w))
  ∧ requests (world_of (main w)) = requests w
  ∧ json_replies (world_of (main w)) = json_replies w
  ∧ xml_replies (world_of (main w)) = xml_replies w
  ∧ files (world_of (main w)) = files w
  ∧ directories (world_of (main w)) = directories w
  ∧ console (world_of (main w)) = console w ++ [EnvVarsMissing; PleaseCreateEnvFile].
Proof.
  intros Hmiss.
  assert (Hm : main w = Normal (print PleaseCreateEnvFile (print EnvVarsMissing w))).
  { unfold main.
    destruct Hmiss as [Hv|[Hv|Hv]]; apply missing_or_empty_falsy in Hv; rewrite Hv;
      [done| |]; by rewrite ?andb_false_r. }
  rewrite Hm. simpl. by rewrite <- app_assoc.
Qed.



Lemma ensure_folder_print p l w :
  ensure_folder p (print l w) = (fst (ensure_folder p w), print l (snd (ensure_folder p w))).
Proof. unfold ensure_folder, path_exists. simpl. by destruct (negb _). Qed.

Lemma ensure_folder_files p w : files (snd (ensure_folder p w)) = files w.
Proof. unfold ensure_folder. by destruct (negb _). Qed.

Lemma ensure_folder_requests p w : requests (snd (ensure_folder p w)) = requests w.
Proof. unfold ensure_folder. by destruct (negb _). Qed.

Lemma ensure_folder_xml_replies p w : xml_replies (snd (ensure_folder p w)) = xml_replies w.
Proof. unfold ensure_folder. by destruct (negb _). Qed.

Lemma ensure_folder_os p w : os (snd (ensure_folder p w)) = os w.
Proof. unfold ensure_folder. by destruct (negb _). Qed.

(** The body up to the document fetch, for a record that has an id. *)
Lemma export_component_with_id i n r w sf :
  truthy (dict_get r "componentId") = true →
  sanitize_name (folder_name_of r) = Ok sf →
  export_component i n r w =
    let component_id := dict_get r "componentId" in
    let w0 := print (TypeAndFolder (dict_get r "type") (folder_name_of r))
                (print (Exporting (i + 1) n (component_name_of r) (dict_get r "version")
                          component_id) w) in
    let local_folder_path := local_folder_path_of sf in
    let w1 := snd (ensure_folder local_folder_path w0) in
    if negb (fst (ensure_folder local_folder_path w0)) then
      Normal (print (CouldNotCreateDirectory local_folder_path) w1)
    else
      let fetched := get_component_definition component_id w1 in
      if truthy (fst fetched) then
        match sanitize_name (component_name_of r) with
        | Raise e => Raised e (snd fetched)
        | Ok sanitized_name =>
          let file_path := path_join local_folder_path
                             (file_name_of sanitized_name (dict_get r "version") component_id) in
          let written := write_file file_path (py_str (fst fetched)) (snd fetched) in
          if fst written then Normal (print (SuccessfullySaved file_path) (snd written))
          else Normal (print (CouldNotWrite file_path) (snd written))
        end
      else Normal (print (FailedToRetrieve component_id) (snd fetched)).
Proof.
  intros Hid Hsf. unfold export_component. cbn zeta. rewrite Hid, Hsf. cbn [negb].
  destruct (ensure_folder _ _) as [have w1]. cbn [fst snd].
  destruct (negb have); [done|].
  destruct (get_component_definition _ _) as [xml w2]. cbn [fst snd].
  destruct (truthy xml); [|done].
  destruct (sanitize_name (component_name_of r)); [|done].
  by destruct (write_file _ _ _).
Qed.

Lemma get_component_definition_requests cid w :
  truthy cid = true →
  ∃ rq, requests (snd (get_component_definition cid w)) = requests w ++ [rq].
Proof.
  intros Hid. unfold get_component_definition, send_xml. rewrite Hid. simpl.
  eexists. by destruct (next_reply (xml_replies w)).
Qed.


Lemma get_component_definition_os cid w :
  os (snd (get_component_definition cid w)) = os w
  ∧ os_clock (snd (get_component_definition cid w)) = os_clock w.
Proof.
  unfold get_component_definition, send_xml. destruct (truthy cid); simpl; [|done].
  by destruct (next_reply (xml_replies w)).
Qed.

(** What the fetch returns is decided by the next answer of the document
    endpoint. *)
Lemma get_component_definition_value cid w :
  truthy cid = true →
  fst (get_component_definition cid w) =
    match next_reply (xml_replies w) with
    | Replied text => VStr text
    | _ => VNone
    end.
Proof.
  intros Hid. unfold get_component_definition, send_xml. rewrite Hid. simpl.
  by destruct (next_reply (xml_replies w)).
Qed.

Lemma last_print l w : last (console (print l w)) = Some l.
Proof. simpl. apply last_snoc. Qed.


Lemma ensure_folder_announced p i n r w :
  ensure_folder p (announced i n r w)
  = (fst (ensure_folder p w), announced i n r (snd (ensure_folder p w))).
Proof. unfold announced. by rewrite !ensure_folder_print. Qed.


Lemma export_component_no_id i n r w :
  truthy (dict_get r "componentId") = false →
  export_component i n r w = Normal (print (Skipping (i + 1) n (component_name_of r) r) w).
Proof. intros Hid. unfold export_component. cbn zeta. by rewrite Hid. Qed.




Lemma export_component_document i n r w sf text :
  truthy (dict_get r "componentId") = true →
  sanitize_name (folder_name_of r) = Ok sf →
  fst (ensure_folder (local_folder_path_of sf) w) = true →
  next_reply (xml_replies w) = Replied text → text ≠ [] →
  export_component i n r w =
    let w2 := snd (get_component_definition (dict_get r "componentId")
                     (announced i n r (snd (ensure_folder (local_folder_path_of sf) w)))) in
    match sanitize_name (component_name_of r) with
    | Raise e => Raised e w2
    | Ok sanitized_name =>
      let file_path := path_join (local_folder_path_of sf)
                         (file_name_of sanitized_name (dict_get r "version")
                            (dict_get r "componentId")) in
      let written := write_file file_path text w2 in
      if fst written then Normal (print (SuccessfullySaved file_path) (snd written))
      else Normal (print (CouldNotWrite file_path) (snd written))
    end.
Proof.
  intros Hid Hsf Hyes Hnext Htext. rewrite (export_component_with_id _ _ _ _ sf) by done.
  cbn zeta. fold (announced i n r w). rewrite ensure_folder_announced. cbn [fst snd].
  rewrite Hyes. cbn [negb].
  rewrite get_component_definition_value by done.
  assert (Hn : next_reply (xml_replies (announced i n r
                 (snd (ensure_folder (local_folder_path_of sf) w)))) = Replied text).
  { simpl. by rewrite ensure_folder_xml_replies. }
  rewrite Hn. simpl truthy. rewrite bool_decide_eq_false_2 by done. done.
Qed.


Lemma ensure_folder_set_xml_replies p script w :
  ensure_folder p (set_xml_replies script w)
  = (fst (ensure_folder p w), set_xml_replies script (snd (ensure_folder p w))).
Proof. unfold ensure_folder, path_exists. simpl. by destruct (negb _). Qed.

Lemma ensure_folder_directories_set p script w :
  directories (snd (ensure_folder p (set_xml_replies script w)))
  = directories (snd (ensure_folder p w)).
Proof. by rewrite ensure_folder_set_xml_replies. Qed.

(** The world after a fetch, field by field. *)
Lemma get_component_definition_world cid w :
  truthy cid = true →
  let w' := snd (get_component_definition cid w) in
  files w' = files w ∧ directories w' = directories w
  ∧ xml_replies w' = tail (xml_replies w)
  ∧ requests w' = requests w ++ [Request GET (BASE_URL w ++ lit "/Component/" ++ py_str cid)
                                   (basic_auth w) {[ "Accept" := "application/xml" ]}%string
                                   NoPayload].
Proof.
  intros Hid. unfold get_component_definition, send_xml. rewrite Hid. simpl.
  by destruct (next_reply (xml_replies w)).
Qed.




Lemma write_file_saved path text w :
  fst (write_file path text w) = true →
  files (snd (write_file path text w)) !! path = Some text.
Proof.
  unfold write_file. cbn [fst snd files].
  destruct (write_file_result _ _ _ _); [|done..]. intros _. apply lookup_insert_eq.
Qed.

Lemma ensure_folder_console p w : console (snd (ensure_folder p w)) = console w.
Proof. unfold ensure_folder. by destruct (negb _). Qed.

(** A file the walker reports as saved is the record's target path, and the
    file holds the fetched document. *)
Lemma export_component_saves_at_target_path i n r w p :
  last (console (world_of (export_component i n r w))) = Some (SuccessfullySaved p) →
  target_path r = Ok p ∧ is_Some (files (world_of (export_component i n r w)) !! p).
Proof.
  destruct (truthy (dict_get r "componentId")) eqn:Hid.
  2: { rewrite export_component_no_id by done. cbn [world_of]. by rewrite last_print. }
  destruct (sanitize_name (folder_name_of r)) as [sf|e] eqn:Hsf.
  2: { unfold export_component. cbn zeta. rewrite Hid, Hsf. cbn [negb world_of].
       by rewrite last_print. }
  rewrite (export_component_with_id _ _ _ _ sf) by done. cbn zeta.
  fold (announced i n r w). rewrite ensure_folder_announced. cbn [fst snd].
  destruct (fst (ensure_folder (local_folder_path_of sf) w)); cbn [negb world_of].
  2: { by rewrite last_print. }
  set (w1 := announced i n r (snd (ensure_folder (local_folder_path_of sf) w))).
  destruct (truthy (fst (get_component_definition (dict_get r "componentId") w1))) eqn:Hx;
    cbn [world_of].
  2: { by rewrite last_print. }
  destruct (sanitize_name (component_name_of r)) as [sn|e] eqn:Hsn; cbn [world_of].
  2: { intros Hl. exfalso. revert Hl Hx.
       unfold get_component_definition, send_xml. rewrite Hid. cbn [negb].
       destruct (next_reply (xml_replies w1)); cbn [fst snd]; try done.
       unfold w1, announced. simpl. by rewrite last_snoc. }
  destruct (fst (write_file _ _ _)) eqn:Hw; cbn [world_of]; rewrite last_print; [|done].
  intros [= <-]. split.
  - unfold target_path. by rewrite Hsf, Hsn.
  - change (files (print ?l ?w')) with (files w').
    rewrite write_file_saved; [by eexists|done].
Qed.

(** An exception of the walker ends [main]: nothing is printed after it. *)
Lemma main_raises_with_walker w e w' :
  truthy (BOOMI_ACCOUNT_ID w) = true → truthy (BOOMI_USERNAME w) = true →
  truthy (BOOMI_API_TOKEN w) = true →
  path_exists EXPORT_DIRECTORY w = true →
  let w0 := set_BASE_URL (lit "https://api.boomi.com/api/rest/v1/"
                          ++ py_str (BOOMI_ACCOUNT_ID w)) w in
  let components := fst (get_all_components w0) in
  components ≠ [] →
  export_components 0 (length components) components
    (print StartingExport (snd (get_all_components w0))) = Raised e w' →
  main w = Raised e w'.
Proof.
  intros Ha Hu Ht Hex w0 components Hne Hraise. unfold main.
  rewrite Ha, Hu, Ht. cbn [andb negb].
  assert (Hex0 : path_exists EXPORT_DIRECTORY w0 = true) by done.
  fold w0. rewrite Hex0. cbn [negb].
  destruct (get_all_components w0) as [cs w1] eqn:Hg. cbn [fst snd] in *.
  fold components in Hraise. subst components.
  rewrite bool_decide_eq_false_2 by done. by rewrite Hraise.
Qed.
End Walker.

(** ** Further properties of the name sanitizer *)

Section SanitizerMore.
Context {db : UnicodeDB}.

Lemma drop_while_all {A} (p : A → bool) (l : list A) :
  Forall (λ x, p x = true) l → drop_while p l = [].
Proof. induction 1 as [|x l Hx _ IH]; simpl; [done|]. by rewrite Hx. Qed.

(** On ASCII a kept character that is whitespace is the space. *)
Lemma ascii_kept_space (c : N) : c < 128 → kept c → isspace c = true → c = 32.
Proof.
  intros Hc Hk Hs. unfold kept, isalnum, isspace in *.
  apply N.ltb_lt in Hc. rewrite Hc in *.
  destruct Hk as [Ha|Hp].
  - unfold ascii_isalnum, ascii_isspace in *.
    rewrite !orb_true_iff, !andb_true_iff, !N.leb_le in Ha.
    rewrite !orb_true_iff, !andb_true_iff, !N.leb_le in Hs. lia.
  - unfold ascii_isspace in Hs.
    rewrite !orb_true_iff, !andb_true_iff, !N.leb_le in Hs.
    change (lit " ._-") with [32; 46; 95; 45] in Hp.
    repeat (apply elem_of_cons in Hp as [->|Hp]; [lia|]). by apply elem_of_nil in Hp.
Qed.

Lemma sanitize_char_ascii (c : N) : c < 128 → sanitize_char c < 128.
Proof. intros Hc. unfold sanitize_char. destruct (_ || _); [done|lia]. Qed.

(** What is trimmed from an ASCII string is a run of spaces. *)
Lemma ascii_trimmed_spaces (s : pystr) :
  Forall (λ c, c < 128) s →
  ∃ k, sanitize_char <$> s = rstrip (sanitize_char <$> s) ++ replicate k 32.
Proof.
  intros Hascii.
  destruct (rstrip_split (sanitize_char <$> s)) as (trimmed & Hsplit & Hspace).
  exists (length trimmed). rewrite Hsplit at 1. f_equal.
  assert (Hall : Forall (λ c, c = 32) trimmed).
  { apply Forall_forall. intros c Hc.
    assert (Hin : c ∈ sanitize_char <$> s).
    { rewrite Hsplit. apply elem_of_app. by right. }
    apply list_elem_of_fmap in Hin as (c0 & -> & Hc0).
    apply ascii_kept_space.
    - apply sanitize_char_ascii. by apply (proj1 (Forall_forall _ _) Hascii).
    - apply sanitize_char_kept.
    - by apply (proj1 (Forall_forall _ _) Hspace). }
  clear -Hall. induction Hall as [|c l -> _ IH]; simpl; [done|]. by f_equal.
Qed.

(** X1: [sanitize_name] returns a string unchanged exactly when every
    character of it is alphanumeric or one of space, period, underscore and
    hyphen, and its last character is not whitespace. *)
Theorem sanitize_name_fixed_points (s : pystr) :
  sanitize_name (VStr s) = Ok s
  ↔ Forall kept s ∧ ∀ c, last s = Some c → isspace c = false.
Proof.
  split.
  - intros [= Hs]. split.
    + rewrite <- Hs. apply sanitized_all_kept.
    + intros c. rewrite <- Hs. apply rstrip_last.
  - intros [Hk Hl]. unfold sanitize_name. simpl. f_equal.
    rewrite sanitize_fixes_kept by done. by apply rstrip_id.
Qed.

(** X2: on an ASCII string what [sanitize_name] trims are space characters
    only, since a tab or a newline has become an underscore before the
    trimming: the output followed by some number of spaces is the input with
    every character that is not kept replaced by an underscore, and a string
    that does not end in a space loses nothing. *)
Theorem sanitize_name_trims_only_spaces (s : pystr) :
  Forall (λ c, c < 128) s →
  ∃ out k, sanitize_name (VStr s) = Ok out
    ∧ sanitize_char <$> s = out ++ replicate k 32
    ∧ (∀ c, last s = Some c → c ≠ 32 → k = 0%nat ∧ last out = Some (sanitize_char c)).
Proof.
  intros Hascii. destruct (ascii_trimmed_spaces s Hascii) as (k & Hk).
  exists (rstrip (sanitize_char <$> s)), k. split; [done|]. split; [done|].
  intros c Hl Hc.
  assert (Hlast : last (sanitize_char <$> s) = Some (sanitize_char c)).
  { by rewrite fmap_last, Hl. }
  assert (Hne : sanitize_char c ≠ 32).
  { unfold sanitize_char. destruct (_ || _); [done|lia]. }
  destruct k as [|k].
  - split; [done|]. rewrite Hk in Hlast at 1. by rewrite app_nil_r in Hlast.
  - exfalso. rewrite Hk in Hlast. rewrite replicate_S_end, app_assoc, last_snoc in Hlast.
    congruence.
Qed.

(** X3: on an ASCII string [sanitize_name] returns the empty string exactly
    when the input holds nothing but spaces, the empty input included. *)
Theorem sanitize_name_empty_output (s : pystr) :
  Forall (λ c, c < 128) s →
  (sanitize_name (VStr s) = Ok [] ↔ Forall (λ c, c = 32) s).
Proof.
  intros Hascii. split.
  - intros [= Hout]. destruct (ascii_trimmed_spaces s Hascii) as (k & Hk).
    rewrite Hout in Hk. simpl in Hk.
    apply Forall_forall. intros c Hc.
    assert (Hin : sanitize_char c ∈ replicate k 32).
    { rewrite <- Hk. apply list_elem_of_fmap. by exists c. }
    apply elem_of_replicate in Hin as [Hin _].
    unfold sanitize_char in Hin. destruct (_ || _); [done|lia].
  - intros Hall. unfold sanitize_name. simpl. f_equal.
    assert (Hk : Forall kept s).
    { eapply Forall_impl; [exact Hall|]. intros c ->. right.
      apply (bool_decide_unpack _). by vm_compute. }
    rewrite sanitize_fixes_kept by done. unfold rstrip.
    rewrite drop_while_all; [done|]. apply Forall_reverse.
    eapply Forall_impl; [exact Hall|]. by intros c ->.
Qed.

(** X4: a sanitized folder name holds no slash, so the replacement of [/]
    by [os.sep] in [main] changes nothing and every local folder is a direct
    child of the export directory: nested folders are never created. *)
Theorem sanitized_folder_is_flat (name : value) (sf : pystr) :
  sanitize_name name = Ok sf →
  (47 ∉ sf) ∧ replace 47 os_sep sf = sf
  ∧ local_folder_path_of sf = EXPORT_DIRECTORY ++ [47] ++ sf.
Proof.
  intros Hsf. pose proof (sanitize_name_no_slash _ _ Hsf) as Hno.
  split; [done|]. split; [by apply replace_absent|].
  unfold local_folder_path_of. rewrite replace_absent by done.
  unfold path_join. rewrite bool_decide_eq_false_2.
  - done.
  - destruct sf as [|c sf]; [done|]. simpl. intros [= ->]. apply Hno. by left.
Qed.
End SanitizerMore.

(** ** Pagination over any number of pages *)

Section PaginationMore.

Lemma json_replies_print (l : line) (w : world) :
  json_replies (print l w) = json_replies w.
Proof. reflexivity. Qed.

Lemma lacks_result_unusable r : unusable (Replied r) → lacks_result (Some r) = true.
Proof. simpl. unfold lacks_result. by intros ->. Qed.

(** One turn of the loop that gets an unusable answer. *)
Lemma query_more_pages_unusable fuel token acc w :
  truthy token = true → unusable (next_reply (json_replies w)) →
  fst (query_more_pages (S fuel) token acc w) = acc
  ∧ requests (snd (query_more_pages (S fuel) token acc w))
    = requests w ++ [query_more_request token w]
  ∧ json_replies (snd (query_more_pages (S fuel) token acc w)) = tail (json_replies w).
Proof.
  intros Ht Hbad. simpl. rewrite Ht. unfold send_json.
  destruct (next_reply (json_replies w)) as [r| |] eqn:Hn; simpl; try done.
  by rewrite lacks_result_unusable.
Qed.

Lemma query_more_pages_until_unusable pages : ∀ fuel token acc w rest,
  (length pages < fuel)%nat → truthy token = true →
  json_replies w = (Replied <$> pages) ++ rest →
  Forall tokened pages →
  unusable (next_reply rest) →
  fst (query_more_pages fuel token acc w) = acc ++ records_of pages
  ∧ length (requests (snd (query_more_pages fuel token acc w)))
    = (length (requests w) + S (length pages))%nat
  ∧ json_replies (snd (query_more_pages fuel token acc w)) = tail rest.
Proof.
  induction pages as [|r pages IH]; intros fuel token acc w rest Hf Ht Hw Hall Hbad.
  - destruct fuel as [|fuel]; [simpl in Hf; lia|]. simpl in Hw.
    destruct (query_more_pages_unusable fuel token acc w Ht) as (H1 & H2 & H3).
    { by rewrite Hw. }
    rewrite H1, H2, H3, Hw, length_app. simpl. by rewrite app_nil_r.
  - destruct fuel as [|fuel]; [simpl in Hf; lia|].
    apply Forall_cons in Hall as [(page & t & Hres & Htok & Htt) Hall].
    rewrite fmap_cons in Hw. simpl in Hw.
    rewrite (query_more_pages_page _ _ _ _ _ _ _ Ht Hw Hres), Htok.
    change (default VNone (Some t)) with t.
    destruct (IH fuel t (acc ++ page)
                (print (RetrievedSoFar (length (acc ++ page)))
                   (snd (send_json (query_more_request token w) w))) rest)
      as (H1 & H2 & H3); try done.
    + simpl in Hf. lia.
    + simpl. by rewrite Hw.
    + rewrite H1, H2, H3. split; [|split; [|done]].
      * unfold records_of. simpl. rewrite Hres. simpl. by rewrite app_assoc.
      * simpl. rewrite length_app. simpl. lia.
Qed.

Lemma query_more_pages_to_the_end pages : ∀ fuel token acc w final R rest,
  (S (length pages) < fuel)%nat → truthy token = true →
  json_replies w = (Replied <$> pages) ++ Replied final :: rest →
  Forall tokened pages →
  result final = Some R → truthy (default VNone (queryToken final)) = false →
  fst (query_more_pages fuel token acc w) = acc ++ records_of pages ++ R
  ∧ length (requests (snd (query_more_pages fuel token acc w)))
    = (length (requests w) + S (length pages))%nat
  ∧ json_replies (snd (query_more_pages fuel token acc w)) = rest.
Proof.
  induction pages as [|r pages IH];
    intros fuel token acc w final R rest Hf Ht Hw Hall Hres Hlast.
  - destruct fuel as [|fuel]; [simpl in Hf; lia|]. simpl in Hw.
    rewrite (query_more_pages_page _ _ _ _ _ _ _ Ht Hw Hres).
    rewrite query_more_pages_no_token by done. simpl. rewrite Hw.
    rewrite length_app. simpl. done.
  - destruct fuel as [|fuel]; [simpl in Hf; lia|].
    apply Forall_cons in Hall as [(page & t & Hr & Htok & Htt) Hall].
    rewrite fmap_cons in Hw. simpl in Hw.
    rewrite (query_more_pages_page _ _ _ _ _ _ _ Ht Hw Hr), Htok.
    change (default VNone (Some t)) with t.
    destruct (IH fuel t (acc ++ page)
                (print (RetrievedSoFar (length (acc ++ page)))
                   (snd (send_json (query_more_request token w) w))) final R rest)
      as (H1 & H2 & H3); try done.
    + simpl in Hf. lia.
    + simpl. by rewrite Hw.
    + rewrite H1, H2, H3. split; [|split; [|done]].
      * unfold records_of. simpl. rewrite Hr. simpl. by rewrite <- !app_assoc.
      * simpl. rewrite length_app. simpl. lia.
Qed.

(** X5: when the query endpoint answers with any number of pages that
    carry a token and then with a page that carries none, the driver returns
    the records of all these pages in order, has sent one request per page,
    and has consumed exactly these answers. *)
Theorem pagination_follows_all_tokens (w : world) (pages : list response) (final : response)
    (R : list (gmap string value)) (rest : list (reply response)) :
  json_replies w = (Replied <$> pages) ++ Replied final :: rest →
  Forall tokened pages →
  result final = Some R → truthy (default VNone (queryToken final)) = false →
  fst (get_all_components w) = records_of pages ++ R
  ∧ length (requests (snd (get_all_components w)))
    = (length (requests w) + S (length pages))%nat
  ∧ json_replies (snd (get_all_components w)) = rest.
Proof.
  intros Hw Hall Hres Hlast. destruct pages as [|p pages].
  - simpl in Hw. rewrite (get_all_components_first_page _ _ _ _ Hw Hres). cbn zeta.
    rewrite query_more_pages_no_token by done. simpl. rewrite Hw, length_app. done.
  - apply Forall_cons in Hall as [(page & t & Hr & Htok & Htt) Hall].
    rewrite fmap_cons in Hw. simpl in Hw.
    rewrite (get_all_components_first_page _ _ _ _ Hw Hr). cbn zeta. rewrite Htok.
    change (default VNone (Some t)) with t. cbn [fst snd].
    match goal with |- context [query_more_pages ?f ?tk ?a ?w'] =>
      destruct (query_more_pages_to_the_end pages f tk a w' final R rest)
        as (H1 & H2 & H3) end; try done.
    + rewrite length_app, length_fmap. simpl. lia.
    + simpl. by rewrite Hw.
    + rewrite requests_print, json_replies_print, H1, H2, H3. split; [|split; [|done]].
      * unfold records_of. simpl. rewrite Hr. simpl. by rewrite <- app_assoc.
      * simpl. rewrite length_app. simpl. lia.
Qed.

(** X6: when at least one page was received and the answer to a
    continuation request cannot be used (HTTP error, transport error, or a
    2xx body without [result]), the driver stops there, returns the records
    of the pages received before, and has consumed the unusable answer. *)
Theorem pagination_stops_at_unusable_answer (w : world) (r : response) (pages : list response)
    (rest : list (reply response)) :
  json_replies w = (Replied <$> (r :: pages)) ++ rest →
  Forall tokened (r :: pages) →
  unusable (next_reply rest) →
  fst (get_all_components w) = records_of (r :: pages)
  ∧ length (requests (snd (get_all_components w)))
    = (length (requests w) + S (S (length pages)))%nat
  ∧ json_replies (snd (get_all_components w)) = tail rest.
Proof.
  intros Hw Hall Hbad.
  apply Forall_cons in Hall as [(page & t & Hr & Htok & Htt) Hall].
  rewrite fmap_cons in Hw. simpl in Hw.
  rewrite (get_all_components_first_page _ _ _ _ Hw Hr). cbn zeta. rewrite Htok.
  change (default VNone (Some t)) with t. cbn [fst snd].
  match goal with |- context [query_more_pages ?f ?tk ?a ?w'] =>
    destruct (query_more_pages_until_unusable pages f tk a w' rest)
      as (H1 & H2 & H3) end; try done.
  - rewrite length_app, length_fmap. simpl. lia.
  - simpl. by rewrite Hw.
  - rewrite requests_print, json_replies_print, H1, H2, H3. split; [|split; [|done]].
    + unfold records_of. simpl. by rewrite Hr.
    + simpl. rewrite length_app. simpl. lia.
Qed.

(** X7: when the answer to the first query cannot be used, the driver
    returns the empty list after that one request, and its last message is
    the failure of the initial metadata retrieval. *)
Theorem initial_query_failure_gives_nothing (w : world) :
  unusable (next_reply (json_replies w)) →
  fst (get_all_components w) = []
  ∧ requests (snd (get_all_components w)) = requests w ++ [initial_query_request w]
  ∧ json_replies (snd (get_all_components w)) = tail (json_replies w)
  ∧ last (console (snd (get_all_components w))) = Some FailedInitialMetadata.
Proof.
  intros Hbad. unfold get_all_components, make_api_request, send_json. simpl.
  destruct (next_reply (json_replies w)) as [r| |]; simpl in *.
  - rewrite lacks_result_unusable by done. simpl. by rewrite last_snoc.
  - by rewrite last_snoc.
  - by rewrite last_snoc.
Qed.
End PaginationMore.

(** ** What the pagination driver sends and what it leaves alone *)

Section PaginationFrame.

Lemma query_more_pages_trace fuel : ∀ token acc w,
  ∃ more, requests (snd (query_more_pages fuel token acc w)) = requests w ++ more
    ∧ Forall (is_query_more w) more
    ∧ json_replies (snd (query_more_pages fuel token acc w))
      = drop (length more) (json_replies w)
    ∧ same_outside_query w (snd (query_more_pages fuel token acc w)).
Proof.
  induction fuel as [|fuel IH]; intros token acc w.
  { exists []. simpl. rewrite app_nil_r. by repeat split. }
  simpl. destruct (truthy token) eqn:Ht.
  2: { exists []. simpl. rewrite app_nil_r. by repeat split. }
  unfold send_json.
  assert (Hq : is_query_more w (query_more_request token w)) by (by exists token).
  destruct (next_reply (json_replies w)) as [resp|text|] eqn:Hn; simpl.
  2: { exists [query_more_request token w]. simpl. repeat split;
         first [done | by constructor | by destruct (json_replies w)]. }
  2: { exists [query_more_request token w]. simpl. repeat split;
         first [done | by constructor | by destruct (json_replies w)]. }
  destruct (lacks_result (Some resp)); simpl.
  { exists [query_more_request token w]. simpl. repeat split;
      first [done | by constructor | by destruct (json_replies w)]. }
  match goal with |- context [query_more_pages fuel ?t ?a ?w'] =>
    destruct (IH t a w') as (more & Hr & Hall & Hj & Hsame) end.
  exists (query_more_request token w :: more). rewrite Hr, Hj. simpl.
  split; [by rewrite <- app_assoc|]. split; [|split].
  - constructor; [done|]. eapply Forall_impl; [exact Hall|].
    intros rq (t & Htt & ->). by exists t.
  - by destruct (json_replies w).
  - exact Hsame.
Qed.

Lemma get_all_components_trace (w : world) :
  ∃ more, requests (snd (get_all_components w))
          = requests w ++ initial_query_request w :: more
    ∧ Forall (is_query_more w) more
    ∧ json_replies (snd (get_all_components w)) = drop (S (length more)) (json_replies w)
    ∧ same_outside_query w (snd (get_all_components w)).
Proof.
  destruct (json_replies w) as [|[r|text|] rs] eqn:Hw.
  - exists []. unfold get_all_components, make_api_request, send_json. simpl. rewrite Hw.
    by repeat split.
  - destruct (result r) as [page|] eqn:Hres.
    + rewrite (get_all_components_first_page _ _ _ _ Hw Hres). cbn zeta. cbn [snd].
      match goal with |- context [query_more_pages ?f ?t ?a ?w'] =>
        destruct (query_more_pages_trace f t a w') as (more & Hr & Hall & Hj & Hsame) end.
      exists more. rewrite requests_print.
      change (json_replies (print ?l ?w')) with (json_replies w').
      rewrite Hr, Hj. split; [|split; [|split]].
      * cbn -[query_more_pages]. by rewrite <- app_assoc.
      * eapply Forall_impl; [exact Hall|]. intros rq (t & Ht & ->). by exists t.
      * cbn -[query_more_pages]. by rewrite Hw.
      * destruct Hsame as (?&?&?&?&?&?&?&?&?). by repeat split.
    + exists []. unfold get_all_components, make_api_request, send_json. simpl.
      rewrite Hw. simpl. unfold lacks_result. rewrite Hres. simpl. by repeat split.
  - exists []. unfold get_all_components, make_api_request, send_json. simpl. rewrite Hw.
    by repeat split.
  - exists []. unfold get_all_components, make_api_request, send_json. simpl. rewrite Hw.
    by repeat split.
Qed.

(** X8: the requests of the driver are the initial query, sent as JSON,
    followed by continuation requests only: each is a POST to the same URL
    with the same credentials, accepts JSON, is sent as XML, and carries the
    envelope of a token the loop's test accepted. *)
Theorem get_all_components_requests (w : world) :
  ∃ more, requests (snd (get_all_components w))
          = requests w ++ initial_query_request w :: more
    ∧ req_headers (initial_query_request w) !! "Content-Type" = Some "application/json"
    ∧ Forall (λ rq,
        req_verb rq = POST
        ∧ req_url rq = req_url (initial_query_request w)
        ∧ req_auth rq = (lit "BOOMI_TOKEN." ++ py_str (BOOMI_USERNAME w), BOOMI_API_TOKEN w)
        ∧ req_headers rq !! "Accept" = Some "application/json"
        ∧ req_headers rq !! "Content-Type" = Some "application/xml"
        ∧ ∃ token, truthy token = true
            ∧ req_payload rq = DataPayload (more_payload_xml token)) more.
Proof.
  destruct (get_all_components_trace w) as (more & Hr & Hall & _).
  exists more. split; [done|]. split; [done|].
  eapply Forall_impl; [exact Hall|]. intros rq (t & Ht & ->).
  repeat split; try done. by exists t.
Qed.

(** X9: the driver changes nothing but the log of requests, the script of
    the query endpoint and the console: credentials, base URL, the answers of
    the document endpoint and the disk are as before, and it has consumed one
    answer per request it sent. *)
Theorem get_all_components_frame (w : world) :
  same_outside_query w (snd (get_all_components w))
  ∧ json_replies (snd (get_all_components w))
    = drop (length (requests (snd (get_all_components w))) - length (requests w))
        (json_replies w).
Proof.
  destruct (get_all_components_trace w) as (more & Hr & _ & Hj & Hsame).
  split; [done|]. rewrite Hj, Hr, length_app. simpl. f_equal. lia.
Qed.
End PaginationFrame.

(** ** What the export walker changes *)

Section WalkerMore.
Context {db : UnicodeDB}.

Lemma files_print (l : line) (w : world) : files (print l w) = files w.
Proof. reflexivity. Qed.

Lemma directories_print (l : line) (w : world) : directories (print l w) = directories w.
Proof. reflexivity. Qed.

Lemma same_outside_export_refl w : same_outside_export w w.
Proof. by repeat split. Qed.

Lemma same_outside_export_trans w1 w2 w3 :
  same_outside_export w1 w2 → same_outside_export w2 w3 → same_outside_export w1 w3.
Proof.
  intros (?&?&?&?&?&?) (?&?&?&?&?&?). repeat split; congruence.
Qed.

Lemma document_request_same cid w w' :
  same_outside_export w w' → document_request cid w' = document_request cid w.
Proof.
  intros (Ha & Hu & Ht & Hb & _). unfold document_request, basic_auth.
  by rewrite Hu, Ht, Hb.
Qed.

(** What one turn of the walker's loop does to the world. *)
Lemma export_component_effects i n r w :
  let w' := world_of (export_component i n r w) in
  same_outside_export w w'
  ∧ directories w ⊆ directories w'
  ∧ (requests w' = requests w
     ∨ truthy (dict_get r "componentId") = true
       ∧ requests w' = requests w ++ [document_request (dict_get r "componentId") w])
  ∧ (files w' = files w
     ∨ ∃ p text, target_path r = Ok p ∧ files w' = <[p := text]> (files w)).
Proof.
  cbn zeta.
  destruct (truthy (dict_get r "componentId")) eqn:Hid.
  2: { rewrite export_component_no_id by done. simpl.
       split; [by repeat split|]. split; [done|]. split; by left. }
  destruct (sanitize_name (folder_name_of r)) as [sf|e] eqn:Hsf.
  2: { unfold export_component. cbn zeta. rewrite Hid, Hsf. simpl.
       split; [by repeat split|]. split; [done|]. split; by left. }
  rewrite (export_component_with_id _ _ _ _ sf) by done. cbn zeta.
  fold (announced i n r w). rewrite ensure_folder_announced. cbn [fst snd].
  set (w1 := snd (ensure_folder (local_folder_path_of sf) w)).
  assert (H1 : same_outside_export w w1 ∧ directories w ⊆ directories w1
               ∧ requests w1 = requests w ∧ files w1 = files w).
  { unfold w1, ensure_folder, makedirs. destruct (negb _); simpl.
    - split; [by repeat split|]. split; [|done].
      destruct (makedirs_ok _ _ _); [apply union_subseteq_r|done].
    - split; [apply same_outside_export_refl|]. done. }
  destruct H1 as (Hs1 & Hd1 & Hr1 & Hf1).
  destruct (fst (ensure_folder (local_folder_path_of sf) w)); cbn [negb world_of].
  2: { simpl. split; [exact Hs1|]. split; [done|]. split; by left. }
  set (w2 := snd (get_component_definition (dict_get r "componentId") (announced i n r w1))).
  assert (H2 : same_outside_export w w2 ∧ directories w2 = directories w1
               ∧ requests w2 = requests w ++ [document_request (dict_get r "componentId") w]
               ∧ files w2 = files w).
  { unfold w2, get_component_definition, send_xml. rewrite Hid. cbn [negb].
    rewrite <- (document_request_same _ w w1 Hs1).
    destruct Hs1 as (?&?&?&?&?&?).
    destruct (next_reply _); simpl; rewrite Hr1; by repeat split. }
  destruct H2 as (Hs2 & Hd2 & Hr2 & Hf2).
  assert (Hd : directories w ⊆ directories w2) by (by rewrite Hd2).
  destruct (truthy (fst (get_component_definition _ _))); cbn [world_of].
  2: { simpl. fold w2. split; [exact Hs2|]. split; [done|]. split; [by right|by left]. }
  destruct (sanitize_name (component_name_of r)) as [sn|e] eqn:Hsn; cbn [world_of].
  2: { fold w2. split; [exact Hs2|]. split; [done|]. split; [by right|by left]. }
  fold w2.
  set (p := path_join (local_folder_path_of sf)
              (file_name_of sn (dict_get r "version") (dict_get r "componentId"))).
  assert (Hp : target_path r = Ok p).
  { unfold target_path. by rewrite Hsf, Hsn. }
  set (text := py_str (fst (get_component_definition _ _))).
  assert (H3 : same_outside_export w (snd (write_file p text w2))
               ∧ directories (snd (write_file p text w2)) = directories w2
               ∧ requests (snd (write_file p text w2)) = requests w2
               ∧ (files (snd (write_file p text w2)) = files w
                  ∨ ∃ t, files (snd (write_file p text w2)) = <[p := t]> (files w))).
  { unfold write_file. cbn [snd]. destruct Hs2 as (?&?&?&?&?&?).
    split; [by repeat split|]. split; [done|]. split; [done|]. simpl. rewrite Hf2.
    destruct (write_file_result _ _ _ _); [right; by eexists|by left|right; by eexists]. }
  destruct H3 as (Hs3 & Hd3 & Hr3 & Hf3).
  assert (Hfin : ∀ l, same_outside_export w (print l (snd (write_file p text w2)))
            ∧ directories w ⊆ directories (print l (snd (write_file p text w2)))
            ∧ (requests (print l (snd (write_file p text w2))) = requests w
               ∨ true = true
                 ∧ requests (print l (snd (write_file p text w2)))
                   = requests w ++ [document_request (dict_get r "componentId") w])
            ∧ (files (print l (snd (write_file p text w2))) = files w
               ∨ ∃ p0 t, target_path r = Ok p0
                   ∧ files (print l (snd (write_file p text w2))) = <[p0 := t]> (files w))).
  { intros l. rewrite files_print, directories_print, requests_print, Hd3, Hr3.
    split; [exact Hs3|]. split; [done|]. split; [by right|].
    destruct Hf3 as [Hf3|[t Hf3]]; [by left|]. right. by exists p, t. }
  destruct (fst (write_file p text w2)); apply Hfin.
Qed.

Lemma export_components_effects cs : ∀ i n w,
  let w' := world_of (export_components i n cs w) in
  same_outside_export w w'
  ∧ directories w ⊆ directories w'
  ∧ dom (files w) ⊆ dom (files w')
  ∧ (∀ p, (∀ r, r ∈ cs → target_path r ≠ Ok p) → files w' !! p = files w !! p)
  ∧ ∃ later, requests w' = requests w ++ later
      ∧ later `sublist_of`
          ((λ r, document_request (dict_get r "componentId") w)
             <$> filter (λ r, truthy (dict_get r "componentId") = true) cs).
Proof.
  induction cs as [|r cs IH]; intros i n w; cbn zeta.
  { simpl. split; [apply same_outside_export_refl|]. repeat split; try done.
    exists []. by rewrite app_nil_r. }
  destruct (export_component_effects i n r w) as (Hs & Hd & Hr & Hf). cbn zeta in *.
  assert (Hdom : dom (files w) ⊆ dom (files (world_of (export_component i n r w)))).
  { destruct Hf as [->|(p & t & _ & ->)]; [done|]. rewrite dom_insert_L. apply union_subseteq_r. }
  assert (Hframe : ∀ p, target_path r ≠ Ok p →
            files (world_of (export_component i n r w)) !! p = files w !! p).
  { intros p Hp. destruct Hf as [->|(p0 & t & Hp0 & ->)]; [done|].
    apply lookup_insert_ne. congruence. }
  assert (Hreq : ∃ one, requests (world_of (export_component i n r w)) = requests w ++ one
            ∧ one `sublist_of`
                ((λ r, document_request (dict_get r "componentId") w)
                   <$> filter (λ r, truthy (dict_get r "componentId") = true) [r])).
  { destruct Hr as [Hr|[Hid Hr]].
    - exists []. rewrite app_nil_r. split; [done|]. apply sublist_nil_l.
    - eexists. split; [exact Hr|]. rewrite filter_cons_True by done. done. }
  destruct Hreq as (one & Hone & Hsub1).
  simpl. destruct (export_component i n r w) as [w1|e w1] eqn:Hb; cbn [world_of] in *.
  - destruct (IH (S i) n w1) as (Hs' & Hd' & Hdom' & Hframe' & later & Hl & Hsub).
    cbn zeta in *.
    split; [by eapply same_outside_export_trans|].
    split; [by etrans|]. split; [by etrans|].
    split.
    + intros p Hp. rewrite Hframe'.
      * apply Hframe. apply Hp. by left.
      * intros r' Hr'. apply Hp. by right.
    + exists (one ++ later). rewrite Hl, Hone, <- app_assoc. split; [done|].
      change (r :: cs) with ([r] ++ cs). rewrite filter_app, fmap_app.
      apply sublist_app; [done|].
      erewrite list_fmap_ext; [exact Hsub|].
      intros ? r' _. simpl. symmetry. by apply document_request_same.
  - split; [done|]. split; [done|]. split; [done|]. split.
    + intros p Hp. apply Hframe. apply Hp. by left.
    + exists one. split; [done|].
      change (r :: cs) with ([r] ++ cs). rewrite filter_app, fmap_app.
      rewrite <- (app_nil_r one). apply sublist_app; [done|apply sublist_nil_l].
Qed.


(** X12: the walker removes nothing: every file and every directory that
    was there before the walk is there after it. *)
Theorem walker_never_deletes (i n : nat) (cs : list (gmap string value)) (w : world) :
  dom (files w) ⊆ dom (files (world_of (export_components i n cs w)))
  ∧ directories w ⊆ directories (world_of (export_components i n cs w)).
Proof.
  by destruct (export_components_effects cs i n w) as (_ & Hd & Hdom & _).
Qed.

(** X13: the requests of the walker are document requests (GET
    [/Component/<id>], accepting XML) for records that have an id, in the
    order of the records, at most one per record. *)
Theorem walker_requests_follow_records (i n : nat) (cs : list (gmap string value))
    (w : world) :
  ∃ later, requests (world_of (export_components i n cs w)) = requests w ++ later
    ∧ later `sublist_of`
        ((λ r, document_request (dict_get r "componentId") w)
           <$> filter (λ r, truthy (dict_get r "componentId") = true) cs).
Proof.
  by destruct (export_components_effects cs i n w) as (_ & _ & _ & _ & Hr).
Qed.

(** X10: for a record with an id and string names, when the folder is
    there or can be made, the document endpoint answers with a non-empty text
    and the write succeeds, one turn of the loop sends exactly the document
    request, consumes that answer, stores the text at
    [folder/name_v<version>_<id>.xml] and reports the file as saved. *)
Theorem export_component_saves_document (i n : nat) (r : gmap string value) (w : world)
    (sf sn text : pystr) :
  truthy (dict_get r "componentId") = true →
  sanitize_name (folder_name_of r) = Ok sf →
  fst (ensure_folder (local_folder_path_of sf) w) = true →
  next_reply (xml_replies w) = Replied text → text ≠ [] →
  sanitize_name (component_name_of r) = Ok sn →
  let file_path := path_join (local_folder_path_of sf)
                     (file_name_of sn (dict_get r "version") (dict_get r "componentId")) in
  write_file_result (os w) (os_clock (snd (ensure_folder (local_folder_path_of sf) w)))
    file_path text = Written →
  ∃ w', export_component i n r w = Normal w'
    ∧ files w' = <[file_path := text]> (files w)
    ∧ requests w' = requests w ++ [document_request (dict_get r "componentId") w]
    ∧ xml_replies w' = tail (xml_replies w)
    ∧ last (console w') = Some (SuccessfullySaved file_path).
Proof.
  intros Hid Hsf Hyes Hnext Htext Hsn file_path Hw.
  pose proof (export_component_document i n r w sf text Hid Hsf Hyes Hnext Htext) as Hb.
  rewrite Hsn in Hb. cbn zeta in Hb. fold file_path in Hb.
  set (w1 := announced i n r (snd (ensure_folder (local_folder_path_of sf) w))) in *.
  set (w2 := snd (get_component_definition (dict_get r "componentId") w1)) in *.
  destruct (get_component_definition_world (dict_get r "componentId") w1 Hid)
    as (Hf2 & Hd2 & Hx2 & Hq2). cbn zeta in *. fold w2 in Hf2, Hd2, Hx2, Hq2.
  destruct (get_component_definition_os (dict_get r "componentId") w1) as [Ho2 Hc2].
  fold w2 in Ho2, Hc2.
  assert (Hres : write_file_result (os w2) (os_clock w2) file_path text = Written).
  { rewrite Ho2, Hc2. unfold w1. simpl. by rewrite ensure_folder_os. }
  assert (Hfst : fst (write_file file_path text w2) = true).
  { unfold write_file. cbn [fst]. by rewrite Hres. }
  rewrite Hfst in Hb. eexists. split; [exact Hb|].
  split; [|split; [|split]].
  - unfold write_file. simpl. rewrite Hres, Hf2. unfold w1. simpl.
    by rewrite ensure_folder_files.
  - unfold write_file. simpl. rewrite Hq2. unfold w1. simpl.
    rewrite ensure_folder_requests. f_equal. f_equal.
    unfold document_request, basic_auth, ensure_folder, makedirs.
    by destruct (negb _).
  - unfold write_file. simpl. rewrite Hx2. unfold w1. simpl.
    by rewrite ensure_folder_xml_replies.
  - apply last_print.
Qed.
End WalkerMore.

(** ** The message of a saved file *)

Section Saved.
Context {db : UnicodeDB}.

(** X24: when the last message of a turn of the loop reports a file as
    saved at [p], then [p] is the record's target path, the document endpoint
    answered with a non-empty text, and the file at [p] holds that text. *)
Theorem saved_message_is_truthful (i n : nat) (r : gmap string value) (w : world)
    (p : pystr) :
  last (console (world_of (export_component i n r w))) = Some (SuccessfullySaved p) →
  target_path r = Ok p
  ∧ ∃ text, next_reply (xml_replies w) = Replied text ∧ text ≠ []
      ∧ files (world_of (export_component i n r w)) !! p = Some text.
Proof.
  destruct (truthy (dict_get r "componentId")) eqn:Hid.
  2: { rewrite export_component_no_id by done. cbn [world_of]. by rewrite last_print. }
  destruct (sanitize_name (folder_name_of r)) as [sf|e] eqn:Hsf.
  2: { unfold export_component. cbn zeta. rewrite Hid, Hsf. cbn [negb world_of].
       by rewrite last_print. }
  rewrite (export_component_with_id _ _ _ _ sf) by done. cbn zeta.
  fold (announced i n r w). rewrite ensure_folder_announced. cbn [fst snd].
  destruct (fst (ensure_folder (local_folder_path_of sf) w)); cbn [negb world_of].
  2: { by rewrite last_print. }
  set (w1 := announced i n r (snd (ensure_folder (local_folder_path_of sf) w))).
  assert (Hx1 : xml_replies w1 = xml_replies w).
  { unfold w1. simpl. apply ensure_folder_xml_replies. }
  destruct (truthy (fst (get_component_definition (dict_get r "componentId") w1))) eqn:Hx;
    cbn [world_of].
  2: { by rewrite last_print. }
  assert (Hdoc : ∃ text, next_reply (xml_replies w) = Replied text ∧ text ≠ []
                   ∧ fst (get_component_definition (dict_get r "componentId") w1)
                     = VStr text).
  { revert Hx. unfold get_component_definition, send_xml. rewrite Hid, Hx1. cbn [negb].
    destruct (next_reply (xml_replies w)) as [text| |]; cbn [fst]; try done.
    intros Ht. exists text. split; [done|]. split; [|done]. by intros ->. }
  destruct Hdoc as (text & Hnext & Hne & Hfst).
  destruct (sanitize_name (component_name_of r)) as [sn|e] eqn:Hsn; cbn [world_of].
  2: { intros Hl. exfalso. revert Hl.
       unfold get_component_definition, send_xml. rewrite Hid, Hx1, Hnext. cbn [negb snd].
       unfold w1, announced. simpl. by rewrite last_snoc. }
  destruct (fst (write_file _ _ _)) eqn:Hw; cbn [world_of]; rewrite last_print; [|done].
  intros [= <-]. split.
  - unfold target_path. by rewrite Hsf, Hsn.
  - exists text. split; [done|]. split; [done|].
    change (files (print ?l ?w')) with (files w').
    rewrite write_file_saved by done. by rewrite Hfst.
Qed.
End Saved.

(** ** The whole program *)

Section MainMore.
Context {db : UnicodeDB}.

Lemma main_configured w :
  configured w →
  main w =
    if negb (fst (root_ready w)) then Raised OSError (snd (root_ready w))
    else
      let listed := get_all_components (snd (root_ready w)) in
      if bool_decide (fst listed = []) then Normal (print NoComponentsToExport (snd listed))
      else
        match export_components 0 (length (fst listed)) (fst listed)
                (print StartingExport (snd listed)) with
        | Normal w => Normal (print ExportComplete w)
        | Raised e w => Raised e w
        end.
Proof.
  intros (Ha & Hu & Ht). unfold main, root_ready, account_base_url.
  rewrite Ha, Hu, Ht. cbn [andb negb]. cbn zeta.
  destruct (negb (path_exists _ _)).
  - destruct (makedirs _ _) as [[|] w1]; cbn [fst snd negb]; [|done].
    by destruct (get_all_components _).
  - cbn [fst snd negb]. by destruct (get_all_components _).
Qed.

(** What [root_ready] changes: the base URL, and the export directory. *)
Lemma root_ready_effects w :
  let w1 := snd (root_ready w) in
  BOOMI_ACCOUNT_ID w1 = BOOMI_ACCOUNT_ID w ∧ BOOMI_USERNAME w1 = BOOMI_USERNAME w
  ∧ BOOMI_API_TOKEN w1 = BOOMI_API_TOKEN w ∧ BASE_URL w1 = account_base_url w
  ∧ requests w1 = requests w ∧ json_replies w1 = json_replies w
  ∧ xml_replies w1 = xml_replies w ∧ files w1 = files w
  ∧ directories w ⊆ directories w1
  ∧ (fst (root_ready w) = false → console w1 = console w).
Proof.
  unfold root_ready. cbn zeta. destruct (negb (path_exists _ _)).
  - unfold makedirs. cbn zeta. destruct (makedirs_ok _ _ _); simpl; repeat split; try done.
    apply union_subseteq_r.
  - simpl. by repeat split.
Qed.

(** X17: when the export directory is missing and cannot be created,
    [main] ends with the OSError of [os.makedirs] (this call is not inside a
    [try]); no request has been sent, and disk and console are as before. *)
Theorem main_root_directory_failure (w : world) :
  configured w →
  path_exists EXPORT_DIRECTORY w = false →
  makedirs_ok (os w) (os_clock w) EXPORT_DIRECTORY = false →
  ∃ w', main w = Raised OSError w'
    ∧ requests w' = requests w ∧ json_replies w' = json_replies w
    ∧ files w' = files w ∧ directories w' = directories w ∧ console w' = console w.
Proof.
  intros Hc Hex Hmk. rewrite main_configured by done.
  unfold root_ready, makedirs. cbn zeta.
  assert (He : path_exists EXPORT_DIRECTORY (set_BASE_URL (account_base_url w) w) = false)
    by done.
  rewrite He. cbn [negb]. simpl. rewrite Hmk. simpl. eexists. by repeat split.
Qed.

(** X18: when the listing is empty, [main] ends normally with the message
    that there is nothing to export, having written no file and asked for no
    document. *)
Theorem main_without_components (w : world) :
  configured w → fst (root_ready w) = true → listed_components w = [] →
  ∃ w', main w = Normal w'
    ∧ last (console w') = Some NoComponentsToExport
    ∧ files w' = files w ∧ xml_replies w' = xml_replies w.
Proof.
  intros Hc Hroot Hnone. rewrite main_configured by done. rewrite Hroot. cbn [negb].
  cbn zeta. unfold listed_components in Hnone. rewrite Hnone.
  rewrite bool_decide_eq_true_2 by done.
  eexists. split; [done|]. split; [apply last_print|].
  destruct (get_all_components_trace (snd (root_ready w)))
    as (_ & _ & _ & _ & (_&_&_&_&Hx&_&_&_&Hf)).
  destruct (root_ready_effects w) as (_&_&_&_&_&_&Hx1&Hf1&_). cbn zeta in *.
  simpl. by rewrite Hx, Hf, Hx1, Hf1.
Qed.

(** X21: every request of a run is sent with the credentials
    [("BOOMI_TOKEN." + username, token)] to a URL under
    [https://api.boomi.com/api/rest/v1/<account id>]. *)
Theorem main_requests_go_to_account (w : world) :
  configured w →
  ∃ new, requests (world_of (main w)) = requests w ++ new
    ∧ Forall (λ rq,
        req_auth rq = (lit "BOOMI_TOKEN." ++ py_str (BOOMI_USERNAME w), BOOMI_API_TOKEN w)
        ∧ account_base_url w `prefix_of` req_url rq) new.
Proof.
  intros Hc. rewrite main_configured by done.
  destruct (root_ready_effects w) as (Ha1&Hu1&Ht1&Hb1&Hr1&_). cbn zeta in *.
  set (w1 := snd (root_ready w)) in *.
  destruct (fst (root_ready w)); cbn [negb world_of].
  2: { exists []. rewrite app_nil_r. by split. }
  destruct (get_all_components_trace w1)
    as (more & Hr2 & Hall2 & _ & (Ha2&Hu2&Ht2&Hb2&_)).
  set (w2 := snd (get_all_components w1)) in *.
  assert (Hq : Forall (λ rq,
            req_auth rq = (lit "BOOMI_TOKEN." ++ py_str (BOOMI_USERNAME w), BOOMI_API_TOKEN w)
            ∧ account_base_url w `prefix_of` req_url rq) (initial_query_request w1 :: more)).
  { constructor.
    - simpl. unfold basic_auth. rewrite Hu1, Ht1, Hb1. split; [done|]. by apply prefix_app_r.
    - eapply Forall_impl; [exact Hall2|]. intros rq (t & _ & ->). simpl.
      unfold basic_auth. rewrite Hu1, Ht1, Hb1. split; [done|]. by apply prefix_app_r. }
  destruct (bool_decide _); cbn [world_of].
  { exists (initial_query_request w1 :: more). rewrite requests_print, Hr2, Hr1. done. }
  set (cs := fst (get_all_components w1)).
  destruct (export_components_effects cs 0 (length cs) (print StartingExport w2))
    as (_ & _ & _ & _ & later & Hl & Hsub). cbn zeta in *.
  assert (Hd : Forall (λ rq,
            req_auth rq = (lit "BOOMI_TOKEN." ++ py_str (BOOMI_USERNAME w), BOOMI_API_TOKEN w)
            ∧ account_base_url w `prefix_of` req_url rq) later).
  { apply Forall_forall. intros rq Hrq.
    apply sublist_subseteq in Hsub. apply Hsub in Hrq.
    apply list_elem_of_fmap in Hrq as (r & -> & _). simpl.
    unfold basic_auth. simpl. rewrite Hu2, Ht2, Hb2, Hu1, Ht1, Hb1.
    split; [done|]. by apply prefix_app_r. }
  exists ((initial_query_request w1 :: more) ++ later).
  split; [|by apply Forall_app].
  assert (Hreq : requests (world_of (export_components 0 (length cs) cs
                    (print StartingExport w2))) = requests w ++
                    (initial_query_request w1 :: more) ++ later).
  { rewrite Hl, requests_print, Hr2, Hr1. by rewrite <- app_assoc. }
  by destruct (export_components _ _ _ _).
Qed.

(** X22: a run removes nothing: every file and every directory that was
    there before is there after it. *)
Theorem main_never_deletes (w : world) :
  dom (files w) ⊆ dom (files (world_of (main w)))
  ∧ directories w ⊆ directories (world_of (main w)).
Proof.
  destruct (truthy (BOOMI_ACCOUNT_ID w) && truthy (BOOMI_USERNAME w)
            && truthy (BOOMI_API_TOKEN w)) eqn:Hc.
  2: { unfold main. by rewrite Hc. }
  apply andb_true_iff in Hc as [Hc Ht]. apply andb_true_iff in Hc as [Ha Hu].
  rewrite main_configured by done.
  destruct (root_ready_effects w) as (_&_&_&_&_&_&_&Hf1&Hd1&_). cbn zeta in *.
  set (w1 := snd (root_ready w)) in *.
  destruct (fst (root_ready w)); cbn [negb world_of].
  2: { by rewrite Hf1. }
  destruct (get_all_components_trace w1) as (_ & _ & _ & _ & (_&_&_&_&_&_&_&Hd2&Hf2)).
  set (w2 := snd (get_all_components w1)) in *.
  destruct (bool_decide _); cbn [world_of].
  { rewrite files_print, directories_print, Hf2, Hd2, Hf1. done. }
  set (cs := fst (get_all_components w1)).
  destruct (export_components_effects cs 0 (length cs) (print StartingExport w2))
    as (_ & Hd3 & Hf3 & _). cbn zeta in *.
  rewrite files_print, Hf2, Hf1 in Hf3. rewrite directories_print, Hd2 in Hd3.
  assert (Hd : directories w ⊆ directories (world_of (export_components 0 (length cs) cs
                 (print StartingExport w2)))) by (by etrans).
  by destruct (export_components _ _ _ _).
Qed.
End MainMore.

(** ** The console *)

Section Console.
Context {db : UnicodeDB}.

Lemma printed_nil w w' : console w' = console w → printed w w' [].
Proof. unfold printed. intros ->. by rewrite app_nil_r. Qed.

Lemma printed_print w w' new l : printed w w' new → printed w (print l w') (new ++ [l]).
Proof. unfold printed. simpl. intros ->. by rewrite app_assoc. Qed.

Lemma printed_trans w1 w2 w3 new1 new2 :
  printed w1 w2 new1 → printed w2 w3 new2 → printed w1 w3 (new1 ++ new2).
Proof. unfold printed. intros H1 ->. by rewrite H1, app_assoc. Qed.

(** The lines of the pagination loop. *)
Lemma query_more_pages_console fuel : ∀ token acc w,
  ∃ new, printed w (snd (query_more_pages fuel token acc w)) new
    ∧ Forall (λ l, guard_message l = false) new ∧ omap progress_of new = [].
Proof.
  induction fuel as [|fuel IH]; intros token acc w.
  { exists []. split; [by apply printed_nil|done]. }
  simpl. destruct (truthy token).
  2: { exists []. split; [by apply printed_nil|done]. }
  unfold send_json. destruct (next_reply (json_replies w)) as [resp|text|]; simpl.
  - destruct (lacks_result (Some resp)); simpl.
    + exists [FailedSubsequentPage]. split; [done|]. split; [by repeat constructor|done].
    + match goal with |- context [query_more_pages fuel ?t ?a ?w'] =>
        destruct (IH t a w') as (new & Hp & Hg & Ho) end.
      eexists (_ :: new). split; [|split].
      * unfold printed in *. rewrite Hp. simpl. by rewrite <- app_assoc.
      * by constructor.
      * done.
  - exists [HttpErrorDuringPagination; ResponseContent text].
    split; [unfold printed; simpl; by rewrite <- app_assoc|].
    split; [by repeat constructor|done].
  - exists [ErrorDuringPagination]. split; [done|]. split; [by repeat constructor|done].
Qed.

Lemma get_all_components_console w :
  ∃ new, printed w (snd (get_all_components w)) new
    ∧ Forall (λ l, guard_message l = false) new ∧ omap progress_of new = [].
Proof.
  unfold get_all_components, make_api_request, send_json. cbn -[query_more_pages].
  destruct (next_reply (json_replies w)) as [resp|text|]; cbn -[query_more_pages].
  - destruct (lacks_result (Some resp)); cbn -[query_more_pages].
    + eexists [_; _]. split; [unfold printed; simpl; by rewrite <- app_assoc|].
      split; [by repeat constructor|done].
    + match goal with |- context [query_more_pages ?f ?t ?a ?w'] =>
        destruct (query_more_pages_console f t a w') as (new & Hp & Hg & Ho);
        destruct (query_more_pages f t a w') as [all w2] end.
      cbn [snd] in *. eexists (_ :: _ :: new ++ [_]). split; [|split].
      * unfold printed in *. simpl. rewrite Hp. simpl. by rewrite <- !app_assoc.
      * repeat constructor. apply Forall_app. split; [done|by repeat constructor].
      * simpl. rewrite omap_app, Ho. done.
  - eexists [_; _; _; _]. split; [unfold printed; simpl; by rewrite <- !app_assoc|].
    split; [by repeat constructor|done].
  - eexists [_; _; _]. split; [unfold printed; simpl; by rewrite <- !app_assoc|].
    split; [by repeat constructor|done].
Qed.

(** The lines of one turn of the walker's loop: one line opens the record. *)
Lemma export_component_console i n r w :
  ∃ new, printed w (world_of (export_component i n r w)) new
    ∧ Forall (λ l, guard_message l = false) new
    ∧ omap progress_of new = [((i + 1)%nat, n)].
Proof.
  destruct (truthy (dict_get r "componentId")) eqn:Hid.
  2: { rewrite export_component_no_id by done. eexists [_].
       split; [done|]. split; [by repeat constructor|done]. }
  destruct (sanitize_name (folder_name_of r)) as [sf|e] eqn:Hsf.
  2: { unfold export_component. cbn zeta. rewrite Hid, Hsf. simpl. eexists [_; _].
       split; [unfold printed; simpl; by rewrite <- !app_assoc|].
       split; [by repeat constructor|done]. }
  rewrite (export_component_with_id _ _ _ _ sf) by done. cbn zeta.
  fold (announced i n r w). rewrite ensure_folder_announced. cbn [fst snd].
  set (w1 := snd (ensure_folder (local_folder_path_of sf) w)).
  assert (H1 : console w1 = console w) by apply ensure_folder_console.
  assert (Ha : ∀ w0, console w0 = console w →
            printed w (announced i n r w0)
              [Exporting (i + 1) n (component_name_of r) (dict_get r "version")
                 (dict_get r "componentId");
               TypeAndFolder (dict_get r "type") (folder_name_of r)]).
  { intros w0 H0. unfold printed, announced. simpl. by rewrite H0, <- !app_assoc. }
  destruct (fst (ensure_folder (local_folder_path_of sf) w)); cbn [negb world_of].
  2: { eexists. split; [apply printed_print, Ha, H1|].
       split; [by repeat constructor|done]. }
  set (w2 := snd (get_component_definition (dict_get r "componentId") (announced i n r w1))).
  assert (H2 : ∃ new2, printed w w2
                 ([Exporting (i + 1) n (component_name_of r) (dict_get r "version")
                     (dict_get r "componentId");
                   TypeAndFolder (dict_get r "type") (folder_name_of r)] ++ new2)
               ∧ Forall (λ l, guard_message l = false) new2 ∧ omap progress_of new2 = []).
  { unfold w2, get_component_definition, send_xml. rewrite Hid. cbn [negb].
    destruct (next_reply _); cbn [snd].
    - exists []. split; [|done]. eapply printed_trans; [by apply Ha|]. by apply printed_nil.
    - eexists [_]. split; [by eapply printed_trans; [apply Ha|]|].
      split; [by repeat constructor|done].
    - eexists [_]. split; [by eapply printed_trans; [apply Ha|]|].
      split; [by repeat constructor|done]. }
  destruct H2 as (new2 & Hp2 & Hg2 & Ho2).
  assert (Hfin : ∀ l, guard_message l = false → progress_of l = None →
            ∀ w3, console w3 = console w2 →
            ∃ new, printed w (print l w3) new
              ∧ Forall (λ l, guard_message l = false) new
              ∧ omap progress_of new = [((i + 1)%nat, n)]).
  { intros l Hg Ho w3 H3. eexists. split; [|split].
    - apply printed_print. unfold printed in *. rewrite H3. exact Hp2.
    - repeat constructor; try done. apply Forall_app. split; [done|by repeat constructor].
    - rewrite !omap_app, Ho2. simpl. by rewrite Ho. }
  destruct (truthy (fst (get_component_definition _ _))); cbn [world_of].
  2: { fold w2. by apply Hfin. }
  destruct (sanitize_name (component_name_of r)) as [sn|e] eqn:Hsn; cbn [world_of].
  2: { fold w2. eexists. split; [exact Hp2|]. split.
       - repeat constructor; done.
       - by rewrite omap_app, Ho2. }
  fold w2. destruct (fst (write_file _ _ w2)); by apply Hfin.
Qed.

Lemma export_components_console cs : ∀ i n w,
  ∃ new, printed w (world_of (export_components i n cs w)) new
    ∧ Forall (λ l, guard_message l = false) new
    ∧ omap progress_of new `prefix_of` ((λ k, (k, n)) <$> seq (i + 1) (length cs))
    ∧ (∀ w', export_components i n cs w = Normal w' →
         omap progress_of new = (λ k, (k, n)) <$> seq (i + 1) (length cs)).
Proof.
  induction cs as [|r cs IH]; intros i n w.
  { exists []. split; [by apply printed_nil|]. done. }
  destruct (export_component_console i n r w) as (new1 & Hp1 & Hg1 & Ho1).
  simpl. destruct (export_component i n r w) as [w1|e w1] eqn:Hb; cbn [world_of] in *.
  - destruct (IH (S i) n w1) as (new2 & Hp2 & Hg2 & Ho2 & Hn2).
    exists (new1 ++ new2). split; [by eapply printed_trans|].
    split; [by apply Forall_app|]. rewrite omap_app, Ho1.
    replace (S i + 1)%nat with (S (i + 1)) in * by lia. split.
    + simpl. by apply prefix_cons.
    + intros w' Hw'. simpl. f_equal. by eapply Hn2.
  - exists new1. split; [done|]. split; [done|]. rewrite Ho1. split; [|done].
    simpl. apply prefix_cons, prefix_nil.
Qed.

(** X23: a run only adds lines to the console, and never the messages of
    the two guards inside the API client: [main] calls [make_api_request]
    with POST only and [get_component_definition] with a truthy id only. *)
Theorem main_never_prints_guard_messages (w : world) :
  ∃ new, console (world_of (main w)) = console w ++ new
    ∧ Forall (λ l, l ≠ NullOrEmptyId ∧ ∀ method, l ≠ UnsupportedMethod method) new.
Proof.
  assert (Hg : ∀ new, Forall (λ l, guard_message l = false) new →
            Forall (λ l, l ≠ NullOrEmptyId ∧ ∀ method, l ≠ UnsupportedMethod method) new).
  { intros new Hnew. eapply Forall_impl; [exact Hnew|].
    intros l Hl. split; [|intros m]; by intros ->. }
  destruct (truthy (BOOMI_ACCOUNT_ID w) && truthy (BOOMI_USERNAME w)
            && truthy (BOOMI_API_TOKEN w)) eqn:Hc.
  2: { unfold main. rewrite Hc. simpl. eexists [_; _]. rewrite <- app_assoc.
       split; [done|]. by repeat constructor. }
  apply andb_true_iff in Hc as [Hc Ht]. apply andb_true_iff in Hc as [Ha Hu].
  rewrite main_configured by done.
  assert (H1 : ∃ new1, printed w (snd (root_ready w)) new1
                 ∧ Forall (λ l, guard_message l = false) new1).
  { unfold root_ready, makedirs. cbn zeta. destruct (negb (path_exists _ _)).
    - destruct (makedirs_ok _ _ _); simpl.
      + eexists [_]. split; [done|by repeat constructor].
      + exists []. split; [by apply printed_nil|done].
    - exists []. split; [by apply printed_nil|done]. }
  destruct H1 as (new1 & Hp1 & Hg1).
  destruct (fst (root_ready w)); cbn [negb world_of].
  2: { exists new1. split; [done|by apply Hg]. }
  cbn zeta.
  destruct (get_all_components_console (snd (root_ready w))) as (new2 & Hp2 & Hg2 & _).
  destruct (bool_decide _); cbn [world_of].
  { exists ((new1 ++ new2) ++ [NoComponentsToExport]). split.
    - apply printed_print. by eapply printed_trans.
    - apply Hg. repeat (apply Forall_app; split); try done. by repeat constructor. }
  match goal with |- context [export_components ?i ?n ?cs ?w0] =>
    destruct (export_components_console cs i n w0) as (new3 & Hp3 & Hg3 & _);
    destruct (export_components i n cs w0) as [w3|e w3] end; cbn [world_of] in *.
  - exists ((((new1 ++ new2) ++ [StartingExport]) ++ new3) ++ [ExportComplete]). split.
    + apply printed_print. eapply printed_trans; [|exact Hp3].
      apply printed_print. by eapply printed_trans.
    + apply Hg. repeat (apply Forall_app; split); try done; by repeat constructor.
  - exists (((new1 ++ new2) ++ [StartingExport]) ++ new3). split.
    + eapply printed_trans; [|exact Hp3]. apply printed_print. by eapply printed_trans.
    + apply Hg. repeat (apply Forall_app; split); try done; by repeat constructor.
Qed.

(** X16: the lines that open a record ([SKIPPING] or [Exporting]) carry
    the counters [i+1/n], [i+2/n], ... in order, one per record: all of them
    when the walk ends normally, a prefix of them when it is aborted. *)
Theorem walker_counts_every_record (i n : nat) (cs : list (gmap string value)) (w : world) :
  ∃ new, console (world_of (export_components i n cs w)) = console w ++ new
    ∧ omap progress_of new `prefix_of` ((λ k, (k, n)) <$> seq (i + 1) (length cs))
    ∧ (∀ w', export_components i n cs w = Normal w' →
         omap progress_of new = (λ k, (k, n)) <$> seq (i + 1) (length cs)).
Proof.
  destruct (export_components_console cs i n w) as (new & Hp & _ & Hpre & Hn).
  by exists new.
Qed.
End Console.

(** ** Concrete runs *)



Lemma main_aborts_without_credentials_witness :
  main (db := latin1_db) world_without_token
  = Normal (print PleaseCreateEnvFile (print EnvVarsMissing world_without_token))
  ∧ requests (world_of (main (db := latin1_db) world_without_token)) = [].
Proof.
  destruct (main_aborts_without_credentials (db := latin1_db) world_without_token)
    as (Hm & Hr & _).
  - right. right. right. reflexivity.
  - split; [exact Hm|exact Hr].
Defined.





(** The whole program on a page whose first record has a null folderName:
    [main] ends with TypeError, nothing is fetched or written, and the second
    record is never announced. *)
Lemma main_stops_at_null_folder :
  ∃ w', main (db := latin1_db)
          (fresh_world [Replied (Response (Some [null_folder_record; invoice_map_123]) None)]
             [Replied (lit "<Component/>")] willing_os)
        = Raised TypeError w'
    ∧ files w' = ∅ ∧ xml_replies w' = [Replied (lit "<Component/>")]
    ∧ last (console w') = Some (TypeAndFolder VNone VNone).
Proof. eexists. split; [vm_compute; reflexivity|]. vm_compute. done. Qed.

(** ** Further concrete runs *)

Lemma sanitize_name_trims_only_spaces_witness :
  ∃ out k, sanitize_name (db := latin1_db) (VStr (lit "a b" ++ [9; 32; 32])) = Ok out
    ∧ out = lit "a b_" ∧ k = 2%nat.
Proof.
  destruct (sanitize_name_trims_only_spaces (db := latin1_db) (lit "a b" ++ [9; 32; 32]))
    as (out & k & Hout & Hsplit & _).
  - apply (bool_decide_unpack _). by vm_compute.
  - exists out, k. split; [exact Hout|].
    injection Hout as <-. split; [vm_compute; reflexivity|].
    apply (f_equal length) in Hsplit. rewrite length_app, length_replicate in Hsplit.
    vm_compute in Hsplit. lia.
Defined.

Lemma sanitize_name_empty_output_witness :
  sanitize_name (db := latin1_db) (VStr (lit "   ")) = Ok [].
Proof.
  apply (sanitize_name_empty_output (db := latin1_db) (lit "   ")).
  - apply (bool_decide_unpack _). by vm_compute.
  - apply (bool_decide_unpack _). by vm_compute.
Defined.

Lemma sanitized_folder_is_flat_witness :
  local_folder_path_of (lit "Finance_Sub") = lit "boomi_export/Finance_Sub".
Proof.
  destruct (sanitized_folder_is_flat (db := latin1_db) (VStr (lit "Finance/Sub"))
              (lit "Finance_Sub")) as (_ & _ & ->).
  - vm_compute. reflexivity.
  - vm_compute. reflexivity.
Defined.

Lemma pagination_follows_all_tokens_witness :
  fst (get_all_components
         (fresh_world [Replied page_1; Replied page_2; Replied page_3; RequestException]
            [] willing_os))
  = records_of [page_1; page_2] ++ [colliding_a; colliding_b].
Proof.
  apply (pagination_follows_all_tokens _ [page_1; page_2] page_3 _ [RequestException]).
  - reflexivity.
  - repeat constructor; eexists _, _; repeat split; reflexivity.
  - reflexivity.
  - reflexivity.
Defined.

Lemma pagination_stops_at_unusable_answer_witness :
  fst (get_all_components
         (fresh_world [Replied page_1; Replied page_2; Replied page_without_result;
                       Replied page_3] [] willing_os))
  = records_of [page_1; page_2].
Proof.
  apply (pagination_stops_at_unusable_answer _ page_1 [page_2]
           [Replied page_without_result; Replied page_3]).
  - reflexivity.
  - repeat constructor; eexists _, _; repeat split; reflexivity.
  - reflexivity.
Defined.

Lemma initial_query_failure_gives_nothing_witness :
  fst (get_all_components (fresh_world [HTTPError (lit "Unauthorized"); Replied page_1]
                             [] willing_os)) = [].
Proof.
  apply (initial_query_failure_gives_nothing
           (fresh_world [HTTPError (lit "Unauthorized"); Replied page_1] [] willing_os)).
  exact I.
Defined.

Lemma export_component_saves_document_witness :
  ∃ w', export_component (db := latin1_db) 0 1 invoice_map_123
          (fresh_world [] [Replied (lit "<Component/>")] willing_os) = Normal w'
    ∧ files w' = {[ lit "boomi_export/Finance/Invoice Map_v1_123.xml"
                    := lit "<Component/>" ]}.
Proof.
  destruct (export_component_saves_document (db := latin1_db) 0 1 invoice_map_123
              (fresh_world [] [Replied (lit "<Component/>")] willing_os)
              (lit "Finance") (lit "Invoice Map") (lit "<Component/>"))
    as (w' & Hb & Hf & _).
  - reflexivity.
  - vm_compute. reflexivity.
  - vm_compute. reflexivity.
  - reflexivity.
  - vm_compute. intros [=].
  - vm_compute. reflexivity.
  - reflexivity.
  - exists w'. split; [exact Hb|]. rewrite Hf. vm_compute. reflexivity.
Defined.


Lemma main_root_directory_failure_witness :
  ∃ w', main (db := latin1_db) (fresh_world [Replied page_3] [] no_mkdir_os)
        = Raised OSError w' ∧ requests w' = [].
Proof.
  destruct (main_root_directory_failure (db := latin1_db)
              (fresh_world [Replied page_3] [] no_mkdir_os)) as (w' & Hm & Hr & _).
  - repeat split; reflexivity.
  - vm_compute. reflexivity.
  - reflexivity.
  - exists w'. split; [exact Hm|exact Hr].
Defined.

Lemma main_without_components_witness :
  ∃ w', main (db := latin1_db)
          (fresh_world [HTTPError (lit "Unauthorized")] [Replied (lit "<Component/>")]
             willing_os) = Normal w'
    ∧ last (console w') = Some NoComponentsToExport.
Proof.
  destruct (main_without_components (db := latin1_db)
              (fresh_world [HTTPError (lit "Unauthorized")] [Replied (lit "<Component/>")]
                 willing_os)) as (w' & Hm & Hl & _).
  - repeat split; reflexivity.
  - vm_compute. reflexivity.
  - vm_compute. reflexivity.
  - exists w'. split; [exact Hm|exact Hl].
Defined.

Lemma main_requests_go_to_account_witness :
  ∃ new, requests (world_of (main (db := latin1_db)
                               (fresh_world [Replied page_3] [] willing_os))) = [] ++ new
    ∧ Forall (λ rq, lit "https://api.boomi.com/api/rest/v1/acct-1" `prefix_of` req_url rq) new.
Proof.
  destruct (main_requests_go_to_account (db := latin1_db)
              (fresh_world [Replied page_3] [] willing_os)) as (new & Hr & Hall).
  - repeat split; reflexivity.
  - exists new. split; [exact Hr|].
    eapply Forall_impl; [exact Hall|]. intros rq [_ Hp]. exact Hp.
Defined.

Lemma saved_message_is_truthful_witness :
  target_path (db := latin1_db) invoice_map_123
  = Ok (lit "boomi_export/Finance/Invoice Map_v1_123.xml").
Proof.
  apply (saved_message_is_truthful (db := latin1_db) 0 1 invoice_map_123
           (fresh_world [] [Replied (lit "<Component/>")] willing_os)).
  vm_compute. reflexivity.
Defined.
